(** * Beza: proxy routes, status polling and the signaling relay

    A shallow embedding of the server-side code of the drawing board:
    the Next.js route handlers that forward a prompt to the Daydream API
    (oneshot, stream, prompt), the status polling loop of the prompt route,
    and the Socket.IO relay that puts a connection into a named room.

    Handlers are asynchronous JavaScript functions.  They are embedded in a
    state-and-exception monad over a [world]: the world answers every
    outgoing [fetch] and records what the handler did (requests sent, time
    slept), so that "no request is sent" or "at most ten status checks" are
    statements about the recorded trace. *)

From Stdlib Require Import QArith.QArith_base.
From stdpp Require Import base numbers gmap strings list pretty.

#[local] Set Warnings "-register-all".

(** ** JSON values as JavaScript sees them *)

(** What [JSON.parse] gives.  A number literal too large for a double is
    read as [Infinity] or [-Infinity]. *)
Inductive json : Type :=
  | JNull
  | JBool (b : bool)
  | JNum (q : Q)
  | JStr (s : string)
  | JArr (l : list json)
  | JObj (m : gmap string json)
  | JInfinity (negative : bool).

(** A JavaScript variable holds a JSON value or [undefined] ([None]). *)
Abbreviation undefined := (@None json).

(** [!v] is [negb (truthy v)]: undefined, null, false, 0 and the empty string
    are falsy, everything else (arrays and objects included) is truthy. *)
Definition truthy (v : option json) : bool :=
  match v with
  | None => false
  | Some JNull => false
  | Some (JBool b) => b
  | Some (JNum q) => negb (Qnum q =? 0)%Z
  | Some (JStr s) => negb (String.eqb s "")
  | Some (JArr _) => true
  | Some (JObj _) => true
  | Some (JInfinity _) => true
  end.

(** [v.k] for a value that is not null, for the property names the routes
    read (stream_id, prompt, image, pipeline_id, id, status): only an object
    can own such a property; numbers, strings, booleans and arrays answer
    [undefined]. *)
Definition property (v : json) (k : string) : option json :=
  match v with
  | JObj m => m !! k
  | _ => None
  end.

(** [v === "lit"] for a string literal. *)
Definition is_string (v : option json) (lit : string) : bool :=
  match v with
  | Some (JStr s) => String.eqb s lit
  | _ => false
  end.

(** An object literal as [JSON.stringify] sends it: properties whose value is
    undefined are left out. *)
Definition obj (fields : list (string * option json)) : json :=
  JObj (list_to_map
          (omap (fun kv => match kv.2 with
                           | Some v => Some (kv.1, v)
                           | None => None
                           end) fields)).

(** The value a reader of the text that [JSON.stringify] writes gets back:
    a number that is not finite is written as null, everything else as it
    is. *)
Fixpoint written (v : json) : json :=
  match v with
  | JInfinity _ => JNull
  | JArr l => JArr (map written l)
  | JObj m => JObj (written <$> m)
  | _ => v
  end.

(** No number in [v] is [Infinity] or [-Infinity]. *)
Fixpoint finite (v : json) : bool :=
  match v with
  | JInfinity _ => false
  | JArr l => forallb finite l
  | JObj m => map_fold (fun _ x rest => finite x && rest) true m
  | _ => true
  end.

(** The number of nodes of a value. *)
Fixpoint size (v : json) : nat :=
  match v with
  | JArr l => S (foldr (fun x rest => size x + rest) 0 l)
  | JObj m => S (map_fold (fun _ x rest => size x + rest) 0 m)
  | _ => 1
  end.

(** A template literal: text with substituted values.  The substituted value
    is kept as it is (its conversion to text is JavaScript's). *)
Inductive piece : Type :=
  | Text (s : string)
  | Subst (v : option json).

(** ** The world: upstream API, environment, clock and trace *)

(** A thrown value: an [Error] instance with its message, or anything else. *)
Inductive thrown : Type :=
  | ErrorObject (message : string)
  | OtherValue (v : option json).

Inductive parsed : Type :=
  | Malformed (message : string)
  | Parsed (v : json).

Record fetch_request : Type := {
  url : list piece;
  method : string;
  headers : list (string * string);
  body : option json
}.

(** What [fetch] resolves to: the status line, the body as text and the body
    as [JSON.parse] reads it. *)
Record Response : Type := {
  resp_status : nat;
  resp_text : string;
  resp_json : parsed
}.

(** [response.ok]: the status is in the range 200-299. *)
Definition ok (r : Response) : bool :=
  (200 <=? resp_status r) && (resp_status r <=? 299).

Inductive fetch_result : Type :=
  | Rejects (message : string)
  | Resolves (r : Response).

(** One exchange with the upstream API: how it ends and how long it took
    (milliseconds). *)
Record exchange : Type := {
  result : fetch_result;
  latency : nat
}.

Inductive event : Type :=
  | Fetch (r : fetch_request)
  | Sleep (ms : nat).

Record world : Type := {
  upstream : nat -> fetch_request -> exchange; (* answer to the n-th fetch *)
  DAYDREAM_API_KEY : option string;            (* process.env *)
  calls : nat;                                 (* fetches made so far *)
  clock : nat;                                 (* elapsed milliseconds *)
  trace : list event                           (* oldest first *)
}.

Definition advance (w : world) (e : event) (ms : nat) (n : nat) : world :=
  {| upstream := upstream w;
     DAYDREAM_API_KEY := DAYDREAM_API_KEY w;
     calls := calls w + n;
     clock := clock w + ms;
     trace := trace w ++ [e] |}.

Definition boot (net : nat -> fetch_request -> exchange) (key : option string)
  : world :=
  {| upstream := net; DAYDREAM_API_KEY := key;
     calls := 0; clock := 0; trace := [] |}.

(** ** The monad of an async function *)

Inductive outcome (A : Type) : Type :=
  | Returned (a : A)
  | Threw (e : thrown).
Arguments Returned {A} a.
Arguments Threw {A} e.

Definition M (A : Type) : Type := world -> outcome A * world.

Definition ret {A} (a : A) : M A := fun w => (Returned a, w).

Definition throw {A} (e : thrown) : M A := fun w => (Threw e, w).

Definition bind {A B} (m : M A) (k : A -> M B) : M B :=
  fun w => match m w with
           | (Returned a, w') => k a w'
           | (Threw e, w') => (Threw e, w')
           end.

Definition try_catch {A} (m : M A) (handler : thrown -> M A) : M A :=
  fun w => match m w with
           | (Returned a, w') => (Returned a, w')
           | (Threw e, w') => handler e w'
           end.

Notation "'await' x ':=' m 'in' k" := (bind m (fun x => k))
  (at level 10, x name, m at level 100, k at level 200).

(** [await fetch(...)]: the world answers the request; the call and its
    duration are recorded.  A network failure rejects with an [Error]. *)
Definition fetch (r : fetch_request) : M Response :=
  fun w =>
    let x := upstream w (calls w) r in
    let w' := advance w (Fetch r) (latency x) 1 in
    match result x with
    | Rejects message => (Threw (ErrorObject message), w')
    | Resolves resp => (Returned resp, w')
    end.

(** [await new Promise((resolve) => setTimeout(resolve, ms))]. *)
Definition sleep (ms : nat) : M unit :=
  fun w => (Returned tt, advance w (Sleep ms) ms 0).

Definition getenv_DAYDREAM_API_KEY : M (option string) :=
  fun w => (Returned (DAYDREAM_API_KEY w), w).

(** [await response.text()] and [await response.json()]. *)
Definition text (r : Response) : M string := ret (resp_text r).

Definition parse (p : parsed) : M json :=
  match p with
  | Malformed message => throw (ErrorObject message)
  | Parsed v => ret v
  end.

Definition json_of (r : Response) : M json := parse (resp_json r).

(** The incoming request: its body as [req.json()] reads it. *)
Record Request : Type := { req_body : parsed }.

Definition req_json (req : Request) : M json := parse (req_body req).

(** Messages of the TypeErrors V8 raises on null. *)
Definition TypeError_destructure (k : string) : string :=
  "Cannot destructure property '" +:+ k +:+
  "' of '(intermediate value)' as it is null.".

Definition TypeError_read (k : string) : string :=
  "Cannot read properties of null (reading '" +:+ k +:+ "')".

(** [const { k, ... } = v]: null cannot be destructured; any other value
    gives its properties. *)
Definition destructure (v : json) (k : string) : M (string -> option json) :=
  match v with
  | JNull => throw (ErrorObject (TypeError_destructure k))
  | _ => ret (property v)
  end.

(** [v.k] on a value that may be null. *)
Definition member (v : json) (k : string) : M (option json) :=
  match v with
  | JNull => throw (ErrorObject (TypeError_read k))
  | _ => ret (property v k)
  end.

(** What a route answers: [NextResponse.json(data, { status })]. *)
Record HttpResponse : Type := {
  res_status : nat;
  res_body : json
}.

(** The response whose status is [status] and whose body is the JSON text of
    [data]: [res_body] is the value handed over for serialisation. *)
Definition json_response (data : json) (status : nat) : HttpResponse :=
  {| res_status := status; res_body := data |}.

(** The JSON value the client reads from a response. *)
Definition received (res : HttpResponse) : json := written (res_body res).

(** The quotation mark, for messages that contain one. *)
Definition quote : string := String (Ascii.ascii_of_nat 34) EmptyString.

(** The statuses the [Response] constructor refuses for a response with a
    body, with the message of the error it throws: a RangeError outside
    200-599, a TypeError for the null-body statuses 204, 205 and 304 (101
    and 103, the other two, are already out of range). *)
Definition refused (status : nat) : option string :=
  if (status <? 200) || (599 <? status) then
    Some ("init[" +:+ quote +:+ "status" +:+ quote +:+
          "] must be in the range of 200 to 599, inclusive.")
  else if (status =? 204) || (status =? 205) || (status =? 304) then
    Some ("Response constructor: Invalid response status code " +:+
          pretty status)
  else None.

(** [NextResponse.json(data, { status })]; [NextResponse.json(data)] is the
    same with status 200. *)
Definition NextResponse_json (data : json) (status : nat) : M HttpResponse :=
  match refused status with
  | Some message => throw (ErrorObject message)
  | None => ret (json_response data status)
  end.

Definition error_body (message : option json) : json :=
  obj [("error", message)].

(** [`Bearer ${key ?? ""}`] and [`Bearer ${key}`]. *)
Definition bearer_or_empty (key : option string) : string :=
  "Bearer " +:+ default "" key.

Definition bearer (key : option string) : string :=
  "Bearer " +:+ default "undefined" key.

(** The two shapes of [catch] in the routes. *)
Definition catch_instanceof (error : thrown) : M HttpResponse :=
  match error with
  | ErrorObject message =>
      (NextResponse_json (error_body (Some (JStr message))) 500)
  | OtherValue _ =>
      (NextResponse_json
             (error_body (Some (JStr "Unknown server error"))) 500)
  end.

Definition catch_any (error : thrown) : M HttpResponse :=
  match error with
  | ErrorObject message =>
      (NextResponse_json (error_body (Some (JStr message))) 500)
  | OtherValue None =>
      throw (ErrorObject "Cannot read properties of undefined (reading 'message')")
  | OtherValue (Some v) =>
      await message := member v "message" in
      (NextResponse_json (error_body message) 500)
  end.

(** ** Route handlers *)

Definition content_type : string * string :=
  ("Content-Type", "application/json").

(** [app/api/daydream/oneshot/route.ts]. *)
Module OneshotRoute.

(** The request sent to the oneshot endpoint of the API. *)
Definition generate (key : option string) (prompt image : option json)
  : fetch_request :=
  {| url := [Text "https://api.daydream.live/v1/oneshot"];
     method := "POST";
     headers := [content_type; ("Authorization", bearer_or_empty key)];
     body := Some (obj
       [("pipeline",
         Some (JStr (if truthy image then "image-to-image"
                     else "text-to-image")));
        ("model_id", Some (JStr "streamdiffusion"));
        ("params",
         Some (obj ([("prompt", prompt)]
                    ++ (if truthy image then [("image", image)] else [])
                    ++ [("guidance_scale", Some (JNum (Qmake 15 2)));
                        ("num_inference_steps",
                         Some (JNum (Qmake 30 1)))])))]) |}.

Definition POST (req : Request) : M HttpResponse :=
  try_catch
    (await parsed_body := req_json req in
     await fields := destructure parsed_body "prompt" in
     let prompt := fields "prompt" in
     let image := fields "image" in
     if negb (truthy prompt) then
       (NextResponse_json (error_body (Some (JStr "Missing prompt"))) 400)
     else
       await key := getenv_DAYDREAM_API_KEY in
       await response := fetch (generate key prompt image) in
       if negb (ok response) then
         await errorText := text response in
         (NextResponse_json (error_body (Some (JStr errorText)))
                (resp_status response))
       else
         await result := json_of response in
         (NextResponse_json result 200))
    catch_instanceof.

End OneshotRoute.

(** The stream route, the version that reads the body before its [try]
    and catches [error: any]. *)
Module StreamRouteAny.

Definition create_stream (authorization : string)
    (pipeline_id : option json) : fetch_request :=
  {| url := [Text "https://api.daydream.live/v1/streams"];
     method := "POST";
     headers := [content_type; ("Authorization", authorization)];
     body := Some (obj [("pipeline_id", pipeline_id)]) |}.

Definition POST (req : Request) : M HttpResponse :=
  await parsed_body := req_json req in
  await fields := destructure parsed_body "pipeline_id" in
  let pipeline_id := fields "pipeline_id" in
  if negb (truthy pipeline_id) then
    (NextResponse_json (error_body (Some (JStr "Missing pipeline_id"))) 400)
  else
    try_catch
      (await key := getenv_DAYDREAM_API_KEY in
       await response := fetch (create_stream (bearer key) pipeline_id) in
       if negb (ok response) then
         await errorText := text response in
         (NextResponse_json (error_body (Some (JStr errorText)))
                (resp_status response))
       else
         await data := json_of response in
         (NextResponse_json data 200))
      catch_any.

End StreamRouteAny.

(** The stream route, the version whose [try] covers the whole body. *)
Module StreamRoute.

Definition POST (req : Request) : M HttpResponse :=
  try_catch
    (await parsed_body := req_json req in
     await fields := destructure parsed_body "pipeline_id" in
     let pipeline_id := fields "pipeline_id" in
     if negb (truthy pipeline_id) then
       (NextResponse_json
              (error_body (Some (JStr "Missing pipeline_id"))) 400)
     else
       await key := getenv_DAYDREAM_API_KEY in
       await response :=
         fetch (StreamRouteAny.create_stream (bearer_or_empty key)
                  pipeline_id) in
       if negb (ok response) then
         await errorText := text response in
         (NextResponse_json (error_body (Some (JStr errorText)))
                (resp_status response))
       else
         await data := json_of response in
         (NextResponse_json data 200))
    catch_instanceof.

End StreamRoute.

(** The prompt route that posts to [/v1/streams/{id}/prompt]: it reads the
    body before its [try], requires an image and catches [error: any]. *)
Module PromptRouteV1.

(** The request sent to the prompt endpoint of the stream. *)
Definition submit (key : option string) (stream_id prompt image : option json)
  : fetch_request :=
  {| url := [Text "https://api.daydream.live/v1/streams/";
             Subst stream_id; Text "/prompt"];
     method := "POST";
     headers := [content_type; ("Authorization", bearer key)];
     body := Some (obj
       [("prompt", prompt);
        ("image", image);
        ("guidance_scale", Some (JNum (Qmake 15 2)));
        ("num_inference_steps", Some (JNum (Qmake 50 1)))]) |}.

Definition POST (req : Request) : M HttpResponse :=
  await parsed_body := req_json req in
  await fields := destructure parsed_body "stream_id" in
  let stream_id := fields "stream_id" in
  let prompt := fields "prompt" in
  let image := fields "image" in
  if negb (truthy stream_id) || negb (truthy prompt) || negb (truthy image)
  then
    (NextResponse_json
           (error_body (Some (JStr "Missing required fields"))) 400)
  else
    try_catch
      (await key := getenv_DAYDREAM_API_KEY in
       await response := fetch (submit key stream_id prompt image) in
       if negb (ok response) then
         await errorText := text response in
         (NextResponse_json (error_body (Some (JStr errorText)))
                (resp_status response))
       else
         await data := json_of response in
         (NextResponse_json data 200))
      catch_any.

End PromptRouteV1.

(** The prompt route that posts to [/beta/streams/{id}/prompts] and polls
    for the result. *)
Module PromptRoute.

Definition timed_out : string := "Polling timed out, result not ready".
Definition prompt_failed : string := "Prompt failed to process".

(** The status check of one polling turn. *)
Definition status_check (key : option string)
    (stream_id prompt_id : option json) : fetch_request :=
  {| url := [Text "https://api.daydream.live/beta/streams/";
             Subst stream_id; Text "/prompts/"; Subst prompt_id];
     method := "GET";
     headers := [("Authorization", bearer_or_empty key)];
     body := None |}.

(** [for (let i = 0; i < maxAttempts; i++) { ... }] followed by the
    timeout; [remaining] is [maxAttempts - i]. *)
Fixpoint poll_loop (stream_id prompt_id : option json)
    (interval : nat) (remaining : nat) : M json :=
  match remaining with
  | 0 => throw (ErrorObject timed_out)
  | S remaining' =>
      await key := getenv_DAYDREAM_API_KEY in
      await check := fetch (status_check key stream_id prompt_id) in
      if negb (ok check) then
        await message := text check in
        throw (ErrorObject message)
      else
        await data := json_of check in
        await status := member data "status" in
        if is_string status "succeeded" then ret data
        else if is_string status "failed" then
          throw (ErrorObject prompt_failed)
        else
          await _ := sleep interval in
          poll_loop stream_id prompt_id interval remaining'
  end.

Definition pollForResult (stream_id prompt_id : option json)
    (maxAttempts : nat) (interval : nat) : M json :=
  poll_loop stream_id prompt_id interval maxAttempts.

(** Default values of [maxAttempts] and [interval]. *)
Definition maxAttempts_default : nat := 10.
Definition interval_default : nat := 3000.

Definition submit (key : option string) (stream_id prompt image : option json)
  : fetch_request :=
  {| url := [Text "https://api.daydream.live/beta/streams/";
             Subst stream_id; Text "/prompts"];
     method := "POST";
     headers := [content_type; ("Authorization", bearer_or_empty key)];
     body := Some (obj
       [("pipeline",
         Some (JStr (if truthy image then "image-to-image"
                     else "text-to-image")));
        ("model_id", Some (JStr "streamdiffusion"));
        ("params",
         Some (obj ([("prompt", prompt)]
                    ++ (if truthy image then [("image", image)] else [])
                    ++ [("guidance_scale", Some (JNum (Qmake 15 2)));
                        ("num_inference_steps",
                         Some (JNum (Qmake 50 1)))])))]) |}.

Definition POST (req : Request) : M HttpResponse :=
  try_catch
    (await parsed_body := req_json req in
     await fields := destructure parsed_body "stream_id" in
     let stream_id := fields "stream_id" in
     let prompt := fields "prompt" in
     let image := fields "image" in
     if negb (truthy stream_id) || negb (truthy prompt) then
       (NextResponse_json
              (error_body
                 (Some (JStr "Missing required fields: stream_id and prompt are required")))
              400)
     else
       await key := getenv_DAYDREAM_API_KEY in
       await response := fetch (submit key stream_id prompt image) in
       if negb (ok response) then
         await errorText := text response in
         (NextResponse_json (error_body (Some (JStr errorText)))
                (resp_status response))
       else
         await initial := json_of response in
         (* [initial.id && initial.status !== "succeeded"]: both reads are
            of the same value, the second cannot throw once the first did
            not, so they are made ahead of the test *)
         await id := member initial "id" in
         await status := member initial "status" in
         if truthy id && negb (is_string status "succeeded") then
           await finalData :=
             pollForResult stream_id id maxAttempts_default interval_default
           in
           (NextResponse_json finalData 200)
         else
           (NextResponse_json initial 200))
    catch_instanceof.

End PromptRoute.

(** ** The signaling relay *)

Module Signaling.

(** The adapter's table of rooms (room name to socket ids) and what the
    server wrote to the console. *)
Record server : Type := {
  rooms : gmap string (gset string);
  console : list string
}.

Inductive incoming : Type :=
  | Connection (socket_id : string)
  | JoinSession (socket_id : string) (roomId : string).

Definition members (roomId : string) (table : gmap string (gset string))
  : gset string :=
  default ∅ (table !! roomId).

(** [socket.join(roomId)]. *)
Definition socket_join (socket_id roomId : string)
    (table : gmap string (gset string)) : gmap string (gset string) :=
  <[roomId := {[socket_id]} ∪ members roomId table]> table.

(** What the server does with an event.  Socket.IO has put a socket that
    connects into the room named by its own id before the [connection]
    handler runs; the handler itself only logs.  The [joinSession] handler
    joins the room it is given and logs. *)
Definition on (st : server) (e : incoming) : server :=
  match e with
  | Connection socket_id =>
      {| rooms := socket_join socket_id socket_id (rooms st);
         console := console st ++ ["Client connected: " +:+ socket_id] |}
  | JoinSession socket_id roomId =>
      {| rooms := socket_join socket_id roomId (rooms st);
         console := console st ++
           ["Socket " +:+ socket_id +:+ " joined room " +:+ roomId] |}
  end.

Definition listening : server := {| rooms := ∅; console := [] |}.

Definition serve (events : list incoming) : server :=
  foldl on listening events.

(** A socket that disconnects is taken out of every room by Socket.IO, and
    a room left empty is dropped; the server registers no handler for it, so
    nothing is logged. *)
Definition leave_all (socket_id : string)
    (table : gmap string (gset string)) : gmap string (gset string) :=
  omap (fun sockets : gset string =>
          if decide (sockets ∖ {[socket_id]} = ∅) then None
          else Some (sockets ∖ {[socket_id]})) table.

(** The life of the server: events it handles, and sockets going away. *)
Inductive happening : Type :=
  | Event (e : incoming)
  | Disconnect (socket_id : string).

Definition step (st : server) (h : happening) : server :=
  match h with
  | Event e => on st e
  | Disconnect socket_id =>
      {| rooms := leave_all socket_id (rooms st); console := console st |}
  end.

Definition run (history : list happening) : server :=
  foldl step listening history.

(** The sockets a broadcast to [roomId] reaches ([io.to(roomId).emit]). *)
Definition reached (roomId : string) (st : server) : gset string :=
  members roomId (rooms st).

End Signaling.

(** ** Reading a trace *)

Fixpoint fetches (t : list event) : nat :=
  match t with
  | [] => 0
  | Fetch _ :: t' => S (fetches t')
  | Sleep _ :: t' => fetches t'
  end.

Fixpoint slept (t : list event) : nat :=
  match t with
  | [] => 0
  | Fetch _ :: t' => slept t'
  | Sleep ms :: t' => ms + slept t'
  end.

(** The fixed schedule of [n] polling turns: check, wait, check, wait, ... *)
Fixpoint schedule (check : fetch_request) (ms : nat) (n : nat) : list event :=
  match n with
  | 0 => []
  | S n' => Fetch check :: Sleep ms :: schedule check ms n'
  end.

(** Time taken by [m] consecutive exchanges for [q], from call [start] on. *)
Fixpoint exchange_time (net : nat -> fetch_request -> exchange)
    (q : fetch_request) (start m : nat) : nat :=
  match m with
  | 0 => 0
  | S m' => latency (net start q) + exchange_time net q (S start) m'
  end.

(** What a route makes of an upstream response that is not ok: the upstream
    status with the response text under the key error; when the response
    constructor refuses that status, its error is caught and answered 500. *)
Definition error_relayed (r : Response) : HttpResponse :=
  match refused (resp_status r) with
  | None =>
      json_response (error_body (Some (JStr (resp_text r)))) (resp_status r)
  | Some message => json_response (error_body (Some (JStr message))) 500
  end.

(** What a forwarding route hands back for an upstream response: the error
    relayed when the response is not ok; the parsed JSON body as it is, with
    status 200, when it is ok (a body that does not parse is an exception,
    hence a 500). *)
Definition handed_back (r : Response) : HttpResponse :=
  if ok r then
    match resp_json r with
    | Parsed data => json_response data 200
    | Malformed message =>
        json_response (error_body (Some (JStr message))) 500
    end
  else error_relayed r.

(** What a forwarding route makes of an exchange with the upstream. *)
Definition relay (x : exchange) : HttpResponse :=
  match result x with
  | Rejects message => json_response (error_body (Some (JStr message))) 500
  | Resolves r => handed_back r
  end.

Definition bad_request (message : string) : HttpResponse :=
  json_response (error_body (Some (JStr message))) 400.

Definition server_error (message : string) : HttpResponse :=
  json_response (error_body (Some (JStr message))) 500.

(** What the polling prompt route answers once the loop has ended. *)
Definition after_polling (r : outcome json) : HttpResponse :=
  match r with
  | Returned finalData => json_response finalData 200
  | Threw (ErrorObject message) => server_error message
  | Threw (OtherValue _) => server_error "Unknown server error"
  end.

(** A status check that is answered, parses, and reports neither
    "succeeded" nor "failed". *)
Definition pending (x : exchange) : bool :=
  match result x with
  | Resolves r =>
      ok r &&
      match resp_json r with
      | Parsed JNull => false
      | Parsed data =>
          negb (is_string (property data "status") "succeeded")
          && negb (is_string (property data "status") "failed")
      | Malformed _ => false
      end
  | Rejects _ => false
  end.

(** The body a status check gets to see has the given status. *)
Definition reports (x : exchange) (status : string) : bool :=
  match result x with
  | Resolves r =>
      ok r &&
      match resp_json r with
      | Parsed data => is_string (property data "status") status
      | Malformed _ => false
      end
  | Rejects _ => false
  end.

(** ** Sample upstream behaviours *)

Definition answer (status : nat) (content : string) (data : parsed)
  : exchange :=
  {| result := Resolves {| resp_status := status; resp_text := content;
                           resp_json := data |};
     latency := 40 |}.

Definition job (id status : string) : json :=
  obj [("id", Some (JStr id)); ("status", Some (JStr status))].

(** Every request is answered 200 with a job that is still processing. *)
Definition always_processing : nat -> fetch_request -> exchange :=
  fun _ _ => answer 200 "" (Parsed (job "p1" "processing")).

(** The submission is accepted, the first status check reports failure. *)
Definition fails_at_first_check : nat -> fetch_request -> exchange :=
  fun n _ =>
    match n with
    | 0 => answer 200 "" (Parsed (job "p1" "processing"))
    | _ => answer 200 "" (Parsed (job "p1" "failed"))
    end.

(** The submission is accepted, the first status check is refused. *)
Definition busy_at_first_check : nat -> fetch_request -> exchange :=
  fun n _ =>
    match n with
    | 0 => answer 200 "" (Parsed (job "p1" "processing"))
    | _ => answer 503 "Service Unavailable" (Malformed "Unexpected token 'S'")
    end.

(** Every request is refused with 503. *)
Definition always_busy : nat -> fetch_request -> exchange :=
  fun _ _ => answer 503 "Service Unavailable" (Malformed "Unexpected token 'S'").

(** Every request is answered 200 with the body [[1e400]]. *)
Definition overflows : nat -> fetch_request -> exchange :=
  fun _ _ => answer 200 "[1e400]" (Parsed (JArr [JInfinity false])).

(** Every request is answered 304. *)
Definition not_modified : nat -> fetch_request -> exchange :=
  fun _ _ => answer 304 "Not Modified" (Malformed "Unexpected token 'N'").


Definition body_of (fields : list (string * option json)) : Request :=
  {| req_body := Parsed (obj fields) |}.

(** A request body with a stream identifier and a prompt, and no image. *)
Definition text_prompt : Request :=
  body_of [("stream_id", Some (JStr "s1")); ("prompt", Some (JStr "a cat"))].

(** ** More readings of a run *)

(** The world after [k] polling turns whose check was pending: each turn is
    one fetch of [q] and one wait of [ms]. *)
Fixpoint after_turns (q : fetch_request) (ms : nat) (k : nat) (w : world)
  : world :=
  match k with
  | 0 => w
  | S k' =>
      after_turns q ms k'
        (advance (advance w (Fetch q) (latency (upstream w (calls w) q)) 1)
           (Sleep ms) ms 0)
  end.

(** The request goes to the Daydream API. *)
Definition to_daydream (q : fetch_request) : bool :=
  match url q with
  | Text s :: _ => String.prefix "https://api.daydream.live/" s
  | _ => false
  end.

(** The value of a request header. *)
Fixpoint header (name : string) (hs : list (string * string)) : option string :=
  match hs with
  | [] => None
  | (n, v) :: hs' => if String.eqb n name then Some v else header name hs'
  end.

(** Every request in the trace goes to the Daydream API and carries the
    given Authorization header. *)
Definition authorized (authorization : string) (e : event) : Prop :=
  match e with
  | Fetch q =>
      to_daydream q = true /\
      header "Authorization" (headers q) = Some authorization
  | Sleep _ => True
  end.

(** ** The board page: what it does with the routes' answers *)

Module BoardClient.

(** [r.k[0]?.url] when [r.k] is an array and that url is a string. *)
Definition first_url (v : option json) : option string :=
  match v with
  | Some (JArr l) =>
      match head l with
      | Some first =>
          match property first "url" with
          | Some (JStr u) => Some u
          | _ => None
          end
      | None => None
      end
  | _ => None
  end.

Definition extractImageUrlFromDaydreamResponse (res : option json)
  : option string :=
  match res with
  | Some (JObj _ as r) | Some (JArr _ as r) =>
      match property r "output_url" with
      | Some (JStr u) => Some u
      | _ =>
          match first_url (property r "outputs") with
          | Some u => Some u
          | None =>
              match first_url (property r "images") with
              | Some u => Some u
              | None =>
                  match first_url (property r "data") with
                  | Some u => Some u
                  | None => first_url (property r "result")
                  end
              end
          end
      end
  | _ => None
  end.


End BoardClient.

(** ** The board page: its list of pages *)

Module BoardPages.

Record PageData : Type := {
  id : string;
  name : string;
  canvasData : option json
}.

(** The component's state: the pages, the active page, the last snapshot
    saved (as JSON text), and what was shown or logged. *)
Record board : Type := {
  pages : list PageData;
  activePageId : string;
  lastSavedState : option string;
  toasts : list string;
  console : list string
}.

Definition chars : string := "abcdefghijklmnopqrstuvwxyz0123456789".

(** [chars.charAt(n)]: the empty string when [n] is out of range. *)
Definition charAt (s : string) (n : nat) : string :=
  match String.get n s with
  | Some c => String c EmptyString
  | None => ""
  end.

(** [generateShortId]: three segments of three characters, joined by "-".
    [draw n] is the index the n-th call of
    [Math.floor(Math.random() * chars.length)] gives. *)
Definition generateShortId (draw : nat -> nat) : string :=
  foldl (fun acc i =>
           let acc' :=
             foldl (fun acc j => acc +:+ charAt chars (draw (3 * i + j)))
               acc (seq 0 3) in
           if i <? 3 - 1 then acc' +:+ "-" else acc')
        "" (seq 0 3).

Section handlers.

(** JavaScript's [String.prototype.trim] and [JSON.stringify]. *)
Variable trim : string -> string.
Variable JSON_stringify : json -> string.

Definition with_pages (st : board) (ps : list PageData) : board :=
  {| pages := ps; activePageId := activePageId st;
     lastSavedState := lastSavedState st;
     toasts := toasts st; console := console st |}.

Definition toast_error (st : board) (message : string) : board :=
  {| pages := pages st; activePageId := activePageId st;
     lastSavedState := lastSavedState st;
     toasts := toasts st ++ [message]; console := console st |}.

(** [saveCanvasState]; [editor] is [editorRef.current] as the snapshot its
    store gives, or [None] when no editor is mounted. *)
Definition saveCanvasState (editor : option json) (st : board) : board :=
  match editor with
  | None => st
  | Some snapshot =>
      let snapshotJSON := JSON_stringify snapshot in
      if decide (Some snapshotJSON = lastSavedState st) then st
      else
        {| pages :=
             map (fun p => if String.eqb (id p) (activePageId st)
                           then {| id := id p; name := name p;
                                   canvasData := Some snapshot |}
                           else p) (pages st);
           activePageId := activePageId st;
           lastSavedState := Some snapshotJSON;
           toasts := toasts st;
           console := console st ++
             ["Canvas state saved, active page: " +:+ activePageId st] |}
  end.

Definition handleRenamePage (page : string) (newName : string) (st : board)
  : board :=
  if String.eqb (trim newName) "" then
    toast_error st "Page name cannot be empty."
  else
    with_pages st
      (map (fun p => if String.eqb (id p) page
                     then {| id := id p; name := newName;
                             canvasData := canvasData p |}
                     else p) (pages st)).

(** [handleDeletePage]; reading [remaining[0].id] throws when nothing
    remains. *)
Definition handleDeletePage (page : string) (st : board) : outcome board :=
  if length (pages st) =? 1 then
    Returned (toast_error st "Cannot delete the last page.")
  else
    let remaining :=
      List.filter (fun p => negb (String.eqb (id p) page)) (pages st) in
    if String.eqb (activePageId st) page then
      match remaining with
      | [] => Threw (ErrorObject
                       "Cannot read properties of undefined (reading 'id')")
      | first :: _ =>
          Returned {| pages := remaining; activePageId := id first;
                      lastSavedState := None;
                      toasts := toasts st; console := console st |}
      end
    else Returned (with_pages st remaining).

End handlers.

(** The page list is in order: it is not empty, no two pages share an id,
    and the active page is one of them. *)
Definition well_formed (st : board) : Prop :=
  pages st <> [] /\
  NoDup (map id (pages st)) /\
  activePageId st ∈ map id (pages st).

End BoardPages.

(** * Properties *)

(** ** The monad and the polling loop, one turn at a time *)

Ltac async :=
  unfold try_catch, bind, ret, throw, fetch, sleep, text, json_of, req_json,
    parse, destructure, member, getenv_DAYDREAM_API_KEY, catch_instanceof,
    catch_any, NextResponse_json; simpl.

Lemma poll_loop_turn stream_id prompt_id ms n w :
  let q := PromptRoute.status_check (DAYDREAM_API_KEY w) stream_id prompt_id in
  let x := upstream w (calls w) q in
  let w1 := advance w (Fetch q) (latency x) 1 in
  PromptRoute.poll_loop stream_id prompt_id ms (S n) w =
  match result x with
  | Rejects message => (Threw (ErrorObject message), w1)
  | Resolves r =>
      if ok r then
        match resp_json r with
        | Malformed message => (Threw (ErrorObject message), w1)
        | Parsed JNull => (Threw (ErrorObject (TypeError_read "status")), w1)
        | Parsed data =>
            if is_string (property data "status") "succeeded"
            then (Returned data, w1)
            else if is_string (property data "status") "failed"
            then (Threw (ErrorObject PromptRoute.prompt_failed), w1)
            else PromptRoute.poll_loop stream_id prompt_id ms n
                   (advance w1 (Sleep ms) ms 0)
        end
      else (Threw (ErrorObject (resp_text r)), w1)
  end.
Proof.
  intros q x w1. simpl. async. fold q. fold x.
  destruct (result x) as [message|r]; [reflexivity|].
  destruct (ok r); simpl; [|reflexivity].
  destruct (resp_json r) as [message|data]; [reflexivity|].
  destruct data; simpl; try reflexivity.
  - destruct (is_string _ "succeeded"); [reflexivity|].
    destruct (is_string _ "failed"); reflexivity.
Qed.

Lemma fetches_app t1 t2 : fetches (t1 ++ t2) = fetches t1 + fetches t2.
Proof.
  induction t1 as [|[r|ms] t1 IH]; simpl; [reflexivity| |]; rewrite IH; lia.
Qed.

Lemma slept_app t1 t2 : slept (t1 ++ t2) = slept t1 + slept t2.
Proof.
  induction t1 as [|[r|ms] t1 IH]; simpl; [reflexivity| |]; rewrite IH; lia.
Qed.

Lemma fetches_schedule q ms n : fetches (schedule q ms n) = n.
Proof. induction n as [|n IH]; simpl; [reflexivity|]. by rewrite IH. Qed.

Lemma slept_schedule q ms n : slept (schedule q ms n) = n * ms.
Proof. induction n as [|n IH]; simpl; [reflexivity|]. rewrite IH. lia. Qed.

Lemma prefix_schedule_bounds t q ms n :
  t `prefix_of` schedule q ms n -> fetches t <= n /\ slept t <= n * ms.
Proof.
  intros [rest E].
  pose proof (fetches_schedule q ms n) as Hf.
  pose proof (slept_schedule q ms n) as Hs.
  rewrite E, fetches_app in Hf. rewrite E, slept_app in Hs. lia.
Qed.

(** Whatever the upstream answers, a run of the loop follows the schedule:
    its events are a prefix of it, and the counters move accordingly. *)
Lemma poll_loop_run stream_id prompt_id ms n : forall w,
  let q := PromptRoute.status_check (DAYDREAM_API_KEY w) stream_id prompt_id in
  let w' := (PromptRoute.poll_loop stream_id prompt_id ms n w).2 in
  exists t,
    trace w' = trace w ++ t /\
    t `prefix_of` schedule q ms n /\
    calls w' = calls w + fetches t /\
    clock w' =
      clock w + exchange_time (upstream w) q (calls w) (fetches t) + slept t /\
    upstream w' = upstream w /\
    DAYDREAM_API_KEY w' = DAYDREAM_API_KEY w.
Proof.
  induction n as [|n IH]; intros w q w'.
  - exists []. subst w'. simpl. unfold throw. simpl.
    rewrite app_nil_r. repeat split; [apply prefix_nil|lia|lia].
  - subst w'. rewrite poll_loop_turn. fold q.
    set (x := upstream w (calls w) q).
    set (w1 := advance w (Fetch q) (latency x) 1).
    assert (Hstop : exists t,
      trace w1 = trace w ++ t /\
      t `prefix_of` schedule q ms (S n) /\
      calls w1 = calls w + fetches t /\
      clock w1 =
        clock w + exchange_time (upstream w) q (calls w) (fetches t) + slept t /\
      upstream w1 = upstream w /\
      DAYDREAM_API_KEY w1 = DAYDREAM_API_KEY w).
    { exists [Fetch q]. simpl. repeat split; try lia.
      - exists (Sleep ms :: schedule q ms n). reflexivity.
      - fold x. lia. }
    destruct (result x) as [message|r]; [exact Hstop|].
    destruct (ok r); [|exact Hstop].
    destruct (resp_json r) as [message|data]; [exact Hstop|].
    assert (Hgo : exists t,
      let w2 := (PromptRoute.poll_loop stream_id prompt_id ms n
                   (advance w1 (Sleep ms) ms 0)).2 in
      trace w2 = trace w ++ t /\
      t `prefix_of` schedule q ms (S n) /\
      calls w2 = calls w + fetches t /\
      clock w2 =
        clock w + exchange_time (upstream w) q (calls w) (fetches t) + slept t /\
      upstream w2 = upstream w /\
      DAYDREAM_API_KEY w2 = DAYDREAM_API_KEY w).
    { destruct (IH (advance w1 (Sleep ms) ms 0))
        as (t & Ht & Hp & Hc & Hk & Hu & He).
      simpl in Ht, Hp, Hc, Hk, Hu, He.
      exists (Fetch q :: Sleep ms :: t). simpl.
      rewrite Ht, Hc, Hk, Hu, He. fold q. fold x.
      repeat split.
      - by rewrite <- !app_assoc.
      - simpl. by do 2 apply prefix_cons.
      - lia.
      - replace (calls w + 1 + 0) with (S (calls w)) by lia. lia. }
    destruct data as [| | | | |m|]; simpl; try exact Hgo; try exact Hstop.
    destruct (is_string (m !! "status") "succeeded"); [exact Hstop|].
    destruct (is_string (m !! "status") "failed"); [exact Hstop|exact Hgo].
Qed.

(** The loop hands back only a body that reports "succeeded", and throws
    only [Error] objects. *)
Lemma poll_loop_outcome stream_id prompt_id ms n : forall w,
  match (PromptRoute.poll_loop stream_id prompt_id ms n w).1 with
  | Returned data => is_string (property data "status") "succeeded" = true
  | Threw (ErrorObject _) => True
  | Threw (OtherValue _) => False
  end.
Proof.
  induction n as [|n IH]; intros w; [exact I|].
  rewrite poll_loop_turn.
  destruct (result _) as [message|r]; [exact I|].
  destruct (ok r); [|exact I].
  destruct (resp_json r) as [message|data]; [exact I|].
  destruct data as [| | | | |m|]; simpl; try apply IH; try exact I.
  destruct (is_string (m !! "status") "succeeded") eqn:Hs; [exact Hs|].
  destruct (is_string (m !! "status") "failed"); [exact I|apply IH].
Qed.

(** A loop whose every remaining check is pending uses up its turns and
    throws the timeout. *)
Lemma poll_loop_exhausted stream_id prompt_id ms n : forall w,
  (forall i, i < n ->
     pending (upstream w (calls w + i)
                (PromptRoute.status_check (DAYDREAM_API_KEY w)
                   stream_id prompt_id)) = true) ->
  exists w',
    PromptRoute.poll_loop stream_id prompt_id ms n w
      = (Threw (ErrorObject PromptRoute.timed_out), w') /\
    calls w' = calls w + n /\
    trace w' = trace w ++
      schedule (PromptRoute.status_check (DAYDREAM_API_KEY w)
                  stream_id prompt_id) ms n.
Proof.
  induction n as [|n IH]; intros w Hpend.
  - exists w. simpl. rewrite app_nil_r. repeat split. lia.
  - rewrite poll_loop_turn.
    set (q := PromptRoute.status_check (DAYDREAM_API_KEY w)
                stream_id prompt_id) in *.
    pose proof (Hpend 0 ltac:(lia)) as H0.
    replace (calls w + 0) with (calls w) in H0 by lia.
    unfold pending in H0.
    destruct (result (upstream w (calls w) q)) as [message|r];
      [discriminate|].
    destruct (ok r); [|discriminate]. simpl in H0.
    destruct (resp_json r) as [message|data]; [discriminate|].
    set (w2 := advance (advance w (Fetch q) _ 1) (Sleep ms) ms 0).
    assert (Hnext : exists w',
      PromptRoute.poll_loop stream_id prompt_id ms n w2
        = (Threw (ErrorObject PromptRoute.timed_out), w') /\
      calls w' = calls w + S n /\
      trace w' = trace w ++ schedule q ms (S n)).
    { destruct (IH w2) as (w' & Hrun & Hcalls & Htrace).
      - intros i Hi. simpl.
        replace (calls w + 1 + 0 + i) with (calls w + S i) by lia.
        apply Hpend. lia.
      - exists w'. split; [exact Hrun|]. rewrite Hcalls, Htrace. simpl.
        split; [lia|]. by rewrite <- !app_assoc. }
    destruct data as [| | | | |m|]; simpl in *;
      try discriminate; try exact Hnext.
    destruct (is_string (m !! "status") "succeeded"); [discriminate|].
    destruct (is_string (m !! "status") "failed"); [discriminate|].
    exact Hnext.
Qed.

(** ** The routes on a body that is not null *)


(** Case analysis on what a route looked at, in the order it looked. *)
Ltac route :=
  unfold relay, handed_back, error_relayed;
  repeat first
    [ reflexivity
    | match goal with
      | |- context [truthy ?a] => destruct (truthy a); simpl
      | |- context [result ?x] => destruct (result x); simpl
      | |- context [ok ?r] => destruct (ok r); simpl
      | |- context [refused (resp_status ?r)] =>
          destruct (refused (resp_status r)); simpl
      end ].

Ltac route_json :=
  route;
  repeat match goal with
         | |- context [resp_json ?r] => destruct (resp_json r); simpl
         end;
  try reflexivity.

Lemma oneshot_run v w :
  v <> JNull ->
  let prompt := property v "prompt" in
  let q := OneshotRoute.generate (DAYDREAM_API_KEY w) prompt
             (property v "image") in
  let x := upstream w (calls w) q in
  OneshotRoute.POST {| req_body := Parsed v |} w =
  if truthy prompt then (Returned (relay x), advance w (Fetch q) (latency x) 1)
  else (Returned (bad_request "Missing prompt"), w).
Proof.
  intros Hv. cbv zeta. unfold OneshotRoute.POST. async.
  destruct v; try congruence; simpl; route_json.
Qed.

Lemma stream_run v w :
  v <> JNull ->
  let pipeline_id := property v "pipeline_id" in
  let q := StreamRouteAny.create_stream
             (bearer_or_empty (DAYDREAM_API_KEY w)) pipeline_id in
  let x := upstream w (calls w) q in
  StreamRoute.POST {| req_body := Parsed v |} w =
  if truthy pipeline_id
  then (Returned (relay x), advance w (Fetch q) (latency x) 1)
  else (Returned (bad_request "Missing pipeline_id"), w).
Proof.
  intros Hv. cbv zeta. unfold StreamRoute.POST. async.
  destruct v; try congruence; simpl; route_json.
Qed.

Lemma stream_any_run v w :
  v <> JNull ->
  let pipeline_id := property v "pipeline_id" in
  let q := StreamRouteAny.create_stream
             (bearer (DAYDREAM_API_KEY w)) pipeline_id in
  let x := upstream w (calls w) q in
  StreamRouteAny.POST {| req_body := Parsed v |} w =
  if truthy pipeline_id
  then (Returned (relay x), advance w (Fetch q) (latency x) 1)
  else (Returned (bad_request "Missing pipeline_id"), w).
Proof.
  intros Hv. cbv zeta. unfold StreamRouteAny.POST. async.
  destruct v; try congruence; simpl; route_json.
Qed.

Lemma prompt_v1_run v w :
  v <> JNull ->
  let stream_id := property v "stream_id" in
  let prompt := property v "prompt" in
  let image := property v "image" in
  let q := PromptRouteV1.submit (DAYDREAM_API_KEY w) stream_id prompt image in
  let x := upstream w (calls w) q in
  PromptRouteV1.POST {| req_body := Parsed v |} w =
  if truthy stream_id && truthy prompt && truthy image
  then (Returned (relay x), advance w (Fetch q) (latency x) 1)
  else (Returned (bad_request "Missing required fields"), w).
Proof.
  intros Hv. cbv zeta. unfold PromptRouteV1.POST. async.
  destruct v; try congruence; simpl; route_json.
Qed.

#[local] Arguments PromptRoute.pollForResult : simpl never.

Lemma prompt_run v w :
  v <> JNull ->
  let stream_id := property v "stream_id" in
  let prompt := property v "prompt" in
  let q := PromptRoute.submit (DAYDREAM_API_KEY w) stream_id prompt
             (property v "image") in
  let x := upstream w (calls w) q in
  let w1 := advance w (Fetch q) (latency x) 1 in
  PromptRoute.POST {| req_body := Parsed v |} w =
  if truthy stream_id && truthy prompt then
    match result x with
    | Rejects message => (Returned (server_error message), w1)
    | Resolves r =>
        if ok r then
          match resp_json r with
          | Malformed message => (Returned (server_error message), w1)
          | Parsed JNull => (Returned (server_error (TypeError_read "id")), w1)
          | Parsed initial =>
              if truthy (property initial "id")
                 && negb (is_string (property initial "status") "succeeded")
              then
                let run := PromptRoute.pollForResult stream_id
                             (property initial "id")
                             PromptRoute.maxAttempts_default
                             PromptRoute.interval_default w1 in
                (Returned (after_polling run.1), run.2)
              else (Returned (json_response initial 200), w1)
          end
        else (Returned (error_relayed r), w1)
    end
  else (Returned (bad_request
          "Missing required fields: stream_id and prompt are required"), w).
Proof.
  intros Hv. unfold PromptRoute.POST. async. cbv zeta.
  destruct v; try congruence; simpl; route;
    match goal with
    | |- context [resp_json ?r] => destruct (resp_json r) as [?|initial]
    end; simpl; try reflexivity;
    (destruct initial as [| | | | |job|]; simpl; try reflexivity);
    (destruct (truthy (job !! "id")); simpl; [|reflexivity]);
    (destruct (is_string (job !! "status") "succeeded"); simpl; [reflexivity|]);
    match goal with
    | |- context [PromptRoute.pollForResult ?a ?b ?c ?d ?e] =>
        destruct (PromptRoute.pollForResult a b c d e) as [[?|[?|?]] ?]
    end; reflexivity.
Qed.

(** ** The relay's rooms *)

Lemma members_join socket_id roomId room table :
  Signaling.members room (Signaling.socket_join socket_id roomId table) =
  if decide (roomId = room)
  then {[socket_id]} ∪ Signaling.members roomId table
  else Signaling.members room table.
Proof.
  unfold Signaling.members at 1. unfold Signaling.socket_join.
  rewrite lookup_insert. destruct (decide (roomId = room)); reflexivity.
Qed.

Lemma reached_on st e socket room :
  socket ∈ Signaling.reached room (Signaling.on st e) <->
  socket ∈ Signaling.reached room st \/
  e = Signaling.JoinSession socket room \/
  (e = Signaling.Connection socket /\ room = socket).
Proof.
  unfold Signaling.reached. destruct e as [id|id roomId]; simpl.
  - rewrite members_join. destruct (decide (id = room)) as [->|Hne].
    + rewrite elem_of_union, elem_of_singleton. split.
      * intros [->|H]; [right; right; by split|by left].
      * intros [H|[H|[H _]]]; [by right|discriminate|].
        inversion H; subst. by left.
    + split; [by left|]. intros [H|[H|[H ->]]]; [exact H|discriminate|].
      inversion H; subst. by destruct Hne.
  - rewrite members_join. destruct (decide (roomId = room)) as [->|Hne].
    + rewrite elem_of_union, elem_of_singleton. split.
      * intros [->|H]; [right; by left|by left].
      * intros [H|[H|[H _]]]; [by right| |discriminate].
        inversion H; subst. by left.
    + split; [by left|]. intros [H|[H|[H _]]]; [exact H| |discriminate].
      congruence.
Qed.

Lemma reached_foldl events : forall st socket room,
  socket ∈ Signaling.reached room (foldl Signaling.on st events) <->
  socket ∈ Signaling.reached room st \/
  Signaling.JoinSession socket room ∈ events \/
  (Signaling.Connection socket ∈ events /\ room = socket).
Proof.
  induction events as [|e events IH]; intros st socket room; simpl.
  - rewrite !elem_of_nil. tauto.
  - rewrite IH, reached_on, !elem_of_cons. intuition congruence.
Qed.

Lemma reached_listening socket room :
  socket ∉ Signaling.reached room Signaling.listening.
Proof.
  unfold Signaling.reached, Signaling.members. simpl.
  rewrite lookup_empty. simpl. apply not_elem_of_empty.
Qed.

Lemma reached_serve events socket room :
  socket ∈ Signaling.reached room (Signaling.serve events) <->
  Signaling.JoinSession socket room ∈ events \/
  (Signaling.Connection socket ∈ events /\ room = socket).
Proof.
  unfold Signaling.serve. rewrite reached_foldl.
  pose proof (reached_listening socket room). tauto.
Qed.

Lemma members_leave_all socket_id room table :
  Signaling.members room (Signaling.leave_all socket_id table) =
  Signaling.members room table ∖ {[socket_id]}.
Proof.
  unfold Signaling.members, Signaling.leave_all. rewrite lookup_omap.
  destruct (table !! room) as [sockets|]; simpl.
  - destruct (decide (sockets ∖ {[socket_id]} = ∅)) as [He|Hne]; simpl.
    + by rewrite He.
    + reflexivity.
  - apply set_eq. intros x. rewrite elem_of_difference, elem_of_empty. tauto.
Qed.

Lemma reached_step st h socket room :
  socket ∈ Signaling.reached room (Signaling.step st h) <->
  match h with
  | Signaling.Event e =>
      socket ∈ Signaling.reached room st \/
      e = Signaling.JoinSession socket room \/
      (e = Signaling.Connection socket /\ room = socket)
  | Signaling.Disconnect gone =>
      socket ∈ Signaling.reached room st /\ socket <> gone
  end.
Proof.
  destruct h as [e|gone]; simpl.
  - apply reached_on.
  - unfold Signaling.reached. simpl. rewrite members_leave_all.
    rewrite elem_of_difference, elem_of_singleton. tauto.
Qed.

Lemma run_snoc history h :
  Signaling.run (history ++ [h]) = Signaling.step (Signaling.run history) h.
Proof. unfold Signaling.run. by rewrite foldl_app. Qed.

(** A socket is in a room exactly when it entered it, by a joinSession with
    the room's name or by connecting under the room's name, and has not
    disconnected since. *)
Lemma reached_run history : forall socket room,
  socket ∈ Signaling.reached room (Signaling.run history) <->
  exists before e later,
    history = before ++ Signaling.Event e :: later /\
    (e = Signaling.JoinSession socket room \/
     (e = Signaling.Connection socket /\ room = socket)) /\
    Signaling.Disconnect socket ∉ later.
Proof.
  induction history as [|h history IH] using rev_ind; intros socket room.
  - split.
    + intros H. by destruct (reached_listening socket room).
    + intros (before & e & later & H & _). by destruct before.
  - rewrite run_snoc, reached_step. destruct h as [e|gone].
    + rewrite IH. split.
      * intros [(before & e0 & later & -> & He & Hl)|He].
        -- exists before, e0, (later ++ [Signaling.Event e]).
           split; [by rewrite <- app_assoc|]. split; [exact He|].
           rewrite elem_of_app, list_elem_of_singleton.
           intros [H|H]; [by apply Hl|discriminate].
        -- exists history, e, []. split; [reflexivity|]. split; [exact He|].
           apply not_elem_of_nil.
      * intros (before & e0 & later & H & He & Hl).
        destruct later as [|l later _] using rev_ind.
        -- apply app_inj_tail in H as [_ H]. inversion H; subst. by right.
        -- rewrite app_comm_cons, app_assoc in H.
           apply app_inj_tail in H as [-> _]. left.
           exists before, e0, later. split; [reflexivity|]. split; [exact He|].
           intros Hin. apply Hl. rewrite elem_of_app. by left.
    + rewrite IH. split.
      * intros [(before & e0 & later & -> & He & Hl) Hne].
        exists before, e0, (later ++ [Signaling.Disconnect gone]).
        split; [by rewrite <- app_assoc|]. split; [exact He|].
        rewrite elem_of_app, list_elem_of_singleton.
        intros [H|H]; [by apply Hl|]. inversion H; subst. by destruct Hne.
      * intros (before & e0 & later & H & He & Hl).
        destruct later as [|l later _] using rev_ind.
        -- apply app_inj_tail in H as [_ H]. discriminate.
        -- rewrite app_comm_cons, app_assoc in H.
           apply app_inj_tail in H as [-> <-]. split.
           ++ exists before, e0, later. split; [reflexivity|].
              split; [exact He|].
              intros Hin. apply Hl. rewrite elem_of_app. by left.
           ++ intros ->. apply Hl. rewrite elem_of_app. right.
              apply list_elem_of_singleton. reflexivity.
Qed.

(** C8 (amended): a joinSession event adds the emitting socket to the room
    of exactly the name it carries, whatever the name is, and to no other
    room.  Socket.IO itself puts every socket into the room of its own id
    when it connects, and takes a socket out of all its rooms when it
    disconnects.  Hence a broadcast to a room reaches exactly the sockets
    that joined it, or connected under its name, and have not disconnected
    since: a broadcast to "abc" reaches every socket that joined "abc" and
    is still connected, and never reaches a socket that joined only "xyz",
    unless "abc" is that socket's own id. *)
Theorem C8_join_session_scopes_broadcasts :
  (forall st socket roomId,
     Signaling.reached roomId (Signaling.on st (Signaling.JoinSession socket roomId))
       = {[socket]} ∪ Signaling.reached roomId st /\
     forall other, other <> roomId ->
       Signaling.reached other (Signaling.on st (Signaling.JoinSession socket roomId))
         = Signaling.reached other st) /\
  (forall history socket room,
     socket ∈ Signaling.reached room (Signaling.run history) <->
     exists before e later,
       history = before ++ Signaling.Event e :: later /\
       (e = Signaling.JoinSession socket room \/
        (e = Signaling.Connection socket /\ room = socket)) /\
       Signaling.Disconnect socket ∉ later) /\
  (forall before later socket,
     Signaling.Disconnect socket ∉ later ->
     socket ∈ Signaling.reached "abc"
       (Signaling.run
          (before ++ Signaling.Event (Signaling.JoinSession socket "abc") :: later))) /\
  (forall history socket,
     socket <> "abc" ->
     (forall room,
        Signaling.Event (Signaling.JoinSession socket room) ∈ history ->
        room = "xyz") ->
     socket ∉ Signaling.reached "abc" (Signaling.run history)).
Proof.
  split; [|split; [exact reached_run|split]].
  - intros st socket roomId. unfold Signaling.reached. simpl. split.
    + rewrite members_join. by rewrite decide_True.
    + intros other Hne. rewrite members_join. by rewrite decide_False.
  - intros before later socket Hl. apply reached_run.
    exists before, (Signaling.JoinSession socket "abc"), later.
    split; [reflexivity|]. split; [by left|exact Hl].
  - intros history socket Hid Honly Hin.
    apply reached_run in Hin as (before & e & later & -> & [->|[_ He]] & _).
    + assert (H : "abc" = "xyz"); [|discriminate H].
      apply Honly. rewrite elem_of_app, elem_of_cons. right. by left.
    + by destruct Hid.
Qed.

Lemma C8_rooms_witness :
  "Zq3vXo1hTnB8sKdWAAAB" ∈ Signaling.reached "abc"
     (Signaling.run
        ([Signaling.Event (Signaling.Connection "Zq3vXo1hTnB8sKdWAAAB");
          Signaling.Event (Signaling.Connection "m0PfYc7uRjL2eGaHAAAD")] ++
         Signaling.Event (Signaling.JoinSession "Zq3vXo1hTnB8sKdWAAAB" "abc") ::
         [Signaling.Event (Signaling.JoinSession "m0PfYc7uRjL2eGaHAAAD" "xyz");
          Signaling.Disconnect "m0PfYc7uRjL2eGaHAAAD"])) /\
  "m0PfYc7uRjL2eGaHAAAD" ∉ Signaling.reached "abc"
     (Signaling.run
        [Signaling.Event (Signaling.Connection "Zq3vXo1hTnB8sKdWAAAB");
         Signaling.Event (Signaling.Connection "m0PfYc7uRjL2eGaHAAAD");
         Signaling.Event (Signaling.JoinSession "Zq3vXo1hTnB8sKdWAAAB" "abc");
         Signaling.Event (Signaling.JoinSession "m0PfYc7uRjL2eGaHAAAD" "xyz")]).
Proof.
  destruct C8_join_session_scopes_broadcasts as (_ & _ & Hjoined & Honly).
  split.
  - apply Hjoined. rewrite list_elem_of_In. simpl.
    intros [H|[H|[]]]; discriminate H.
  - apply Honly; [discriminate|].
    intros room Hin. apply list_elem_of_In in Hin. simpl in Hin.
    destruct Hin as [H|[H|[H|[H|[]]]]]; congruence.
Defined.

(** A socket that joined "abc" and then went away is no longer reached by a
    broadcast to "abc"; and a socket whose own id is the room's name is
    reached without ever joining it. *)
Lemma C8_departed_socket_counterexample :
  Signaling.reached "abc"
    (Signaling.run
       [Signaling.Event (Signaling.Connection "Zq3vXo1hTnB8sKdWAAAB");
        Signaling.Event (Signaling.JoinSession "Zq3vXo1hTnB8sKdWAAAB" "abc");
        Signaling.Disconnect "Zq3vXo1hTnB8sKdWAAAB"]) = ∅ /\
  Signaling.reached "m0PfYc7uRjL2eGaHAAAD"
    (Signaling.run
       [Signaling.Event (Signaling.Connection "m0PfYc7uRjL2eGaHAAAD");
        Signaling.Event (Signaling.JoinSession "m0PfYc7uRjL2eGaHAAAD" "xyz")])
    = {[ "m0PfYc7uRjL2eGaHAAAD" ]}.
Proof. split; apply set_eq; intros x; vm_compute; tauto. Qed.

(** ** The polling loop *)

(** C7: a run of the polling loop with its default budget makes at most 10
    status checks; its events are a prefix of the fixed schedule "check,
    wait 3000 ms, check, wait 3000 ms, ..." of 10 turns, so consecutive
    checks are separated by exactly one wait of 3000 ms, never longer or
    shorter; the run always ends, with a body reporting "succeeded" or with
    a thrown [Error]; and the time it takes is the time of the checks
    themselves plus the waits, which add up to at most 10 x 3000 ms. *)
Theorem C7_polling_is_bounded stream_id prompt_id w :
  let q := PromptRoute.status_check (DAYDREAM_API_KEY w) stream_id prompt_id in
  exists r w' t,
    PromptRoute.pollForResult stream_id prompt_id
      PromptRoute.maxAttempts_default PromptRoute.interval_default w = (r, w') /\
    trace w' = trace w ++ t /\
    t `prefix_of` schedule q 3000 10 /\
    fetches t <= 10 /\
    calls w' = calls w + fetches t /\
    slept t <= 10 * 3000 /\
    clock w' =
      clock w + exchange_time (upstream w) q (calls w) (fetches t) + slept t /\
    clock w' <=
      clock w + 10 * 3000 + exchange_time (upstream w) q (calls w) (fetches t) /\
    match r with
    | Returned data => is_string (property data "status") "succeeded" = true
    | Threw e => exists message, e = ErrorObject message
    end.
Proof.
  intros q. unfold PromptRoute.pollForResult.
  destruct (poll_loop_run stream_id prompt_id
              PromptRoute.interval_default PromptRoute.maxAttempts_default w)
    as (t & Ht & Hp & Hc & Hk & _).
  pose proof (poll_loop_outcome stream_id prompt_id
                PromptRoute.interval_default PromptRoute.maxAttempts_default w)
    as Hout.
  destruct (PromptRoute.poll_loop _ _ _ _ w) as [r w'] eqn:Hrun.
  cbn [fst snd] in Ht, Hp, Hc, Hk, Hout. fold q in Hp, Hk.
  change PromptRoute.interval_default with 3000 in Hp.
  change PromptRoute.maxAttempts_default with 10 in Hp.
  destruct (prefix_schedule_bounds _ _ _ _ Hp) as [Hf Hs].
  exists r, w', t. repeat split; try assumption; try lia.
  destruct r as [data|[message|v]]; [exact Hout|by exists message|contradiction].
Qed.

Lemma truthy_not_null v k : truthy (property v k) = true -> v <> JNull.
Proof. intros H ->. discriminate. Qed.

(** C1 (amended): when the prompt route has submitted a job that is not yet
    "succeeded" and each of the 10 status checks is answered with an ok
    response whose body carries a status other than "succeeded" and "failed",
    the polling loop makes its 10 checks and throws "Polling timed out,
    result not ready", and the route answers 500 with that message under
    the key error. *)
Theorem C1_exhausted_polling_is_a_500 (v initial : json) (r0 : Response)
    (w : world) :
  let stream_id := property v "stream_id" in
  let prompt_id := property initial "id" in
  let q0 := PromptRoute.submit (DAYDREAM_API_KEY w) stream_id
              (property v "prompt") (property v "image") in
  let w1 := advance w (Fetch q0) (latency (upstream w (calls w) q0)) 1 in
  let q := PromptRoute.status_check (DAYDREAM_API_KEY w) stream_id prompt_id in
  truthy stream_id = true ->
  truthy (property v "prompt") = true ->
  result (upstream w (calls w) q0) = Resolves r0 ->
  ok r0 = true ->
  resp_json r0 = Parsed initial ->
  truthy prompt_id = true ->
  is_string (property initial "status") "succeeded" = false ->
  (forall i, i < 10 -> pending (upstream w (calls w + 1 + i) q) = true) ->
  exists w2,
    PromptRoute.pollForResult stream_id prompt_id 10 3000 w1
      = (Threw (ErrorObject "Polling timed out, result not ready"), w2) /\
    trace w2 = trace w1 ++ schedule q 3000 10 /\
    PromptRoute.POST {| req_body := Parsed v |} w
      = (Returned {| res_status := 500;
                     res_body := obj [("error",
                       Some (JStr "Polling timed out, result not ready"))] |},
         w2).
Proof.
  intros stream_id prompt_id q0 w1 q Hsid Hprompt Hres Hok Hjson Hid Hst Hpend.
  destruct (poll_loop_exhausted stream_id prompt_id 3000 10 w1)
    as (w2 & Hrun & _ & Htrace).
  { intros i Hi. simpl. apply Hpend, Hi. }
  exists w2. unfold PromptRoute.pollForResult. split; [exact Hrun|].
  split; [exact Htrace|].
  rewrite prompt_run by (eapply truthy_not_null, Hsid).
  fold stream_id. rewrite Hsid, Hprompt. simpl. fold q0.
  rewrite Hres, Hok, Hjson.
  assert (Hinit : initial <> JNull) by (eapply truthy_not_null, Hid).
  fold prompt_id. fold w1.
  unfold PromptRoute.pollForResult, PromptRoute.maxAttempts_default,
    PromptRoute.interval_default.
  destruct initial; try congruence;
    rewrite Hid, Hst; cbn [negb andb]; rewrite Hrun; reflexivity.
Qed.

Lemma C1_exhausted_polling_witness :
  exists w2,
    PromptRoute.pollForResult (Some (JStr "s1")) (Some (JStr "p1")) 10 3000
      (advance (boot always_processing None)
         (Fetch (PromptRoute.submit None (Some (JStr "s1"))
                   (Some (JStr "a cat")) None)) 40 1)
      = (Threw (ErrorObject "Polling timed out, result not ready"), w2) /\
    trace w2 =
      [Fetch (PromptRoute.submit None (Some (JStr "s1"))
                (Some (JStr "a cat")) None)]
      ++ schedule (PromptRoute.status_check None (Some (JStr "s1"))
                     (Some (JStr "p1"))) 3000 10 /\
    PromptRoute.POST text_prompt (boot always_processing None)
      = (Returned {| res_status := 500;
                     res_body := obj [("error",
                       Some (JStr "Polling timed out, result not ready"))] |},
         w2).
Proof.
  apply (C1_exhausted_polling_is_a_500
           (obj [("stream_id", Some (JStr "s1"));
                 ("prompt", Some (JStr "a cat"))])
           (job "p1" "processing")
           {| resp_status := 200; resp_text := "";
              resp_json := Parsed (job "p1" "processing") |}
           (boot always_processing None));
    reflexivity.
Defined.

(** C1 as stated fails when a status check is refused: the submission is
    accepted, the one status check that is made is answered 503, so it
    shows neither "succeeded" nor "failed"; the loop throws the text of
    that answer, not the timeout, and the route's 500 carries that text. *)
Lemma C1_refused_check_counterexample :
  reports (busy_at_first_check 1
             (PromptRoute.status_check None (Some (JStr "s1"))
                (Some (JStr "p1")))) "succeeded" = false /\
  reports (busy_at_first_check 1
             (PromptRoute.status_check None (Some (JStr "s1"))
                (Some (JStr "p1")))) "failed" = false /\
  (PromptRoute.pollForResult (Some (JStr "s1")) (Some (JStr "p1")) 10 3000
     (boot always_busy None)).1
    = Threw (ErrorObject "Service Unavailable") /\
  fetches (trace (PromptRoute.POST text_prompt
                    (boot busy_at_first_check None)).2) = 2 /\
  (PromptRoute.POST text_prompt (boot busy_at_first_check None)).1
    = Returned {| res_status := 500;
                  res_body := obj [("error",
                                    Some (JStr "Service Unavailable"))] |} /\
  "Service Unavailable" <> PromptRoute.timed_out.
Proof. repeat split; try (vm_compute; reflexivity). discriminate. Qed.

(** A loop that has a turn left begins with a status check. *)
Lemma poll_loop_first_event stream_id prompt_id ms n w :
  exists t,
    trace (PromptRoute.poll_loop stream_id prompt_id ms (S n) w).2 =
    trace w ++
    Fetch (PromptRoute.status_check (DAYDREAM_API_KEY w) stream_id prompt_id)
    :: t.
Proof.
  destruct (poll_loop_run stream_id prompt_id ms (S n) w)
    as (t & Ht & [rest Hp] & _).
  cbv zeta in Ht. destruct t as [|e t].
  - exfalso. rewrite app_nil_r in Ht. revert Ht. rewrite poll_loop_turn.
    cbv zeta.
    set (w1 := advance w _ _ 1).
    assert (Hw1 : trace w1 <> trace w).
    { intros H. apply (f_equal length) in H. simpl in H.
      rewrite length_app in H. simpl in H. lia. }
    assert (Hgo : trace (PromptRoute.poll_loop stream_id prompt_id ms n
                           (advance w1 (Sleep ms) ms 0)).2 <> trace w).
    { destruct (poll_loop_run stream_id prompt_id ms n
                  (advance w1 (Sleep ms) ms 0)) as (t' & Ht' & _).
      cbv zeta in Ht'. rewrite Ht'. intros H.
      apply (f_equal length) in H. simpl in H.
      rewrite !length_app in H. simpl in H. lia. }
    destruct (result _) as [message|r]; [exact Hw1|].
    destruct (ok r); [|exact Hw1].
    destruct (resp_json r) as [message|data]; [exact Hw1|].
    destruct data as [| | | | |m|]; simpl; try exact Hgo; try exact Hw1.
    destruct (is_string (m !! "status") "succeeded"); [exact Hw1|].
    destruct (is_string (m !! "status") "failed"); [exact Hw1|exact Hgo].
  - simpl in Hp. injection Hp as <- _. exists t. exact Ht.
Qed.

(** C6 (amended): in any turn of the polling loop whose status check is
    answered with an ok response and a JSON body that is not null: a body
    with status "succeeded" is returned as the result; a body with status
    "failed" makes the loop throw "Prompt failed to process"; with any other
    status the loop waits the interval and goes on with the turns that are
    left: when a turn is left the next event is a further status check,
    and when none is left (this was the last of the budget) the loop throws
    the timeout. *)
Theorem C6_one_polling_turn stream_id prompt_id ms n (w : world)
    (r : Response) (data : json) :
  let q := PromptRoute.status_check (DAYDREAM_API_KEY w) stream_id prompt_id in
  let w1 := advance w (Fetch q) (latency (upstream w (calls w) q)) 1 in
  let w2 := advance w1 (Sleep ms) ms 0 in
  let status := property data "status" in
  result (upstream w (calls w) q) = Resolves r ->
  ok r = true ->
  resp_json r = Parsed data ->
  data <> JNull ->
  (is_string status "succeeded" = true ->
     PromptRoute.poll_loop stream_id prompt_id ms (S n) w = (Returned data, w1)) /\
  (is_string status "failed" = true ->
     PromptRoute.poll_loop stream_id prompt_id ms (S n) w
       = (Threw (ErrorObject "Prompt failed to process"), w1)) /\
  (is_string status "succeeded" = false ->
   is_string status "failed" = false ->
     PromptRoute.poll_loop stream_id prompt_id ms (S n) w
       = PromptRoute.poll_loop stream_id prompt_id ms n w2 /\
     (0 < n ->
        exists t,
          trace (PromptRoute.poll_loop stream_id prompt_id ms (S n) w).2
            = trace w ++ [Fetch q; Sleep ms; Fetch q] ++ t) /\
     (n = 0 ->
        PromptRoute.poll_loop stream_id prompt_id ms (S n) w
          = (Threw (ErrorObject "Polling timed out, result not ready"), w2))).
Proof.
  intros q w1 w2 status Hres Hok Hjson Hdata.
  pose proof (poll_loop_turn stream_id prompt_id ms n w) as Hturn.
  cbv zeta in Hturn. fold q in Hturn. rewrite Hres, Hok, Hjson in Hturn.
  fold w1 in Hturn. fold w2 in Hturn.
  assert (Hgo : is_string status "succeeded" = false ->
                is_string status "failed" = false ->
                PromptRoute.poll_loop stream_id prompt_id ms (S n) w
                = PromptRoute.poll_loop stream_id prompt_id ms n w2).
  { intros Hs Hf. rewrite Hturn.
    destruct data; try congruence; try reflexivity.
    fold status. by rewrite Hs, Hf. }
  split; [|split].
  - intros Hs. rewrite Hturn. destruct data; try discriminate.
    fold status. by rewrite Hs.
  - intros Hf. rewrite Hturn. destruct data; try discriminate.
    fold status. rewrite Hf.
    destruct (is_string status "succeeded") eqn:Hs; [|reflexivity].
    exfalso. revert Hs Hf. unfold is_string.
    destruct status as [[| | |s| | |]|]; try discriminate.
    intros H1%String.eqb_eq H2%String.eqb_eq. congruence.
  - intros Hs Hf. split; [exact (Hgo Hs Hf)|]. split.
    + intros Hpos. destruct n as [|n]; [lia|].
      rewrite (Hgo Hs Hf).
      destruct (poll_loop_first_event stream_id prompt_id ms n w2) as [t Ht].
      exists t. rewrite Ht. simpl. fold q. by rewrite <- !app_assoc.
    + intros ->. rewrite (Hgo Hs Hf). reflexivity.
Qed.

Lemma C6_turn_witness :
  PromptRoute.poll_loop (Some (JStr "s1")) (Some (JStr "p1")) 3000 10
    (boot always_processing None)
  = PromptRoute.poll_loop (Some (JStr "s1")) (Some (JStr "p1")) 3000 9
      (advance
         (advance (boot always_processing None)
            (Fetch (PromptRoute.status_check None (Some (JStr "s1"))
                      (Some (JStr "p1")))) 40 1)
         (Sleep 3000) 3000 0).
Proof.
  refine (proj1 (proj2 (proj2
    (C6_one_polling_turn (Some (JStr "s1")) (Some (JStr "p1")) 3000 9
       (boot always_processing None)
       {| resp_status := 200; resp_text := "";
          resp_json := Parsed (job "p1" "processing") |}
       (job "p1" "processing") _ _ _ _)) _ _));
    try reflexivity.
  discriminate.
Defined.

(** C6 as stated fails in the last turn: the tenth status check sees a job
    that is still "processing", the loop waits its 3000 ms, and then no
    further attempt is made: the run has 10 checks, ends on the wait, and
    throws the timeout. *)
Lemma C6_last_turn_counterexample :
  pending (always_processing 9
             (PromptRoute.status_check None (Some (JStr "s1"))
                (Some (JStr "p1")))) = true /\
  (PromptRoute.pollForResult (Some (JStr "s1")) (Some (JStr "p1")) 10 3000
     (boot always_processing None)).1
    = Threw (ErrorObject "Polling timed out, result not ready") /\
  fetches (trace (PromptRoute.pollForResult (Some (JStr "s1"))
                    (Some (JStr "p1")) 10 3000
                    (boot always_processing None)).2) = 10 /\
  last (trace (PromptRoute.pollForResult (Some (JStr "s1"))
                 (Some (JStr "p1")) 10 3000
                 (boot always_processing None)).2) = Some (Sleep 3000).
Proof. repeat split; vm_compute; reflexivity. Qed.

(** ** Validation of the request body *)

(** C2 (amended): for a request whose JSON body is not the literal null, a
    route answers 400 with a body [{ error: <string> }] and sends nothing
    upstream (the world is left as it was) when a field it requires is
    absent or falsy: prompt for the oneshot route, pipeline_id for the
    stream routes, stream_id or prompt for the polling prompt route, and
    stream_id, prompt or image for the v1 prompt route. *)
Theorem C2_missing_field_is_a_400 (v : json) (w : world) :
  v <> JNull ->
  (truthy (property v "prompt") = false ->
     OneshotRoute.POST {| req_body := Parsed v |} w
       = (Returned {| res_status := 400;
                      res_body := obj [("error", Some (JStr "Missing prompt"))] |},
          w)) /\
  (truthy (property v "pipeline_id") = false ->
     StreamRoute.POST {| req_body := Parsed v |} w
       = (Returned {| res_status := 400;
                      res_body := obj [("error",
                                        Some (JStr "Missing pipeline_id"))] |},
          w) /\
     StreamRouteAny.POST {| req_body := Parsed v |} w
       = (Returned {| res_status := 400;
                      res_body := obj [("error",
                                        Some (JStr "Missing pipeline_id"))] |},
          w)) /\
  (truthy (property v "stream_id") = false \/
   truthy (property v "prompt") = false ->
     PromptRoute.POST {| req_body := Parsed v |} w
       = (Returned {| res_status := 400;
                      res_body := obj [("error", Some (JStr
                        "Missing required fields: stream_id and prompt are required"))] |},
          w)) /\
  (truthy (property v "stream_id") = false \/
   truthy (property v "prompt") = false \/
   truthy (property v "image") = false ->
     PromptRouteV1.POST {| req_body := Parsed v |} w
       = (Returned {| res_status := 400;
                      res_body := obj [("error",
                                        Some (JStr "Missing required fields"))] |},
          w)).
Proof.
  intros Hv. repeat split.
  - intros H. rewrite oneshot_run by exact Hv. by rewrite H.
  - rewrite stream_run by exact Hv. by rewrite H.
  - rewrite stream_any_run by exact Hv. by rewrite H.
  - intros H. rewrite prompt_run by exact Hv.
    destruct H as [H|H]; rewrite H; [reflexivity|].
    by rewrite andb_false_r.
  - intros H. rewrite prompt_v1_run by exact Hv.
    destruct H as [H|[H|H]]; rewrite H; [reflexivity| |];
      by rewrite ?andb_false_r.
Qed.

Lemma C2_missing_field_witness :
  OneshotRoute.POST (body_of [("image", Some (JStr "data:image/png;base64,AA"))])
    (boot always_processing None)
  = (Returned {| res_status := 400;
                 res_body := obj [("error", Some (JStr "Missing prompt"))] |},
     boot always_processing None).
Proof.
  apply (C2_missing_field_is_a_400
           (obj [("image", Some (JStr "data:image/png;base64,AA"))])
           (boot always_processing None)).
  - discriminate.
  - reflexivity.
Defined.

(** C2 as stated fails on the body [null]: it has no prompt, no pipeline_id
    and no stream_id, but destructuring it throws a TypeError, which the
    routes that read the body inside their [try] answer with 500. *)
Lemma C2_null_body_counterexample :
  property JNull "prompt" = None /\
  property JNull "pipeline_id" = None /\
  property JNull "stream_id" = None /\
  OneshotRoute.POST {| req_body := Parsed JNull |} (boot always_processing None)
    = (Returned {| res_status := 500;
                   res_body := obj [("error", Some (JStr
                     "Cannot destructure property 'prompt' of '(intermediate value)' as it is null."))] |},
       boot always_processing None) /\
  StreamRoute.POST {| req_body := Parsed JNull |} (boot always_processing None)
    = (Returned {| res_status := 500;
                   res_body := obj [("error", Some (JStr
                     "Cannot destructure property 'pipeline_id' of '(intermediate value)' as it is null."))] |},
       boot always_processing None) /\
  PromptRoute.POST {| req_body := Parsed JNull |} (boot always_processing None)
    = (Returned {| res_status := 500;
                   res_body := obj [("error", Some (JStr
                     "Cannot destructure property 'stream_id' of '(intermediate value)' as it is null."))] |},
       boot always_processing None).
Proof. repeat apply conj; reflexivity. Qed.

(** ** What the routes make of the upstream's answer *)

Lemma json_induction (P : json -> Prop) :
  P JNull -> (forall b, P (JBool b)) -> (forall q, P (JNum q)) ->
  (forall s, P (JStr s)) -> (forall negative, P (JInfinity negative)) ->
  (forall l, Forall P l -> P (JArr l)) ->
  (forall m, map_Forall (fun _ => P) m -> P (JObj m)) ->
  forall v, P v.
Proof.
  intros Hnull Hbool Hnum Hstr Hinf Harr Hobj v.
  remember (size v) as n eqn:Hn. revert v Hn.
  induction (lt_wf n) as [n _ IH]. intros v ->.
  destruct v as [| | | |l|m|]; auto.
  - apply Harr. simpl in IH. induction l as [|x l IHl]; constructor.
    + apply (IH (size x)); [simpl; lia|reflexivity].
    + apply IHl. intros k Hk. apply IH. simpl. lia.
  - apply Hobj. simpl in IH. revert IH.
    induction m as [|k x m Hk Hfold IHm] using map_first_key_ind.
    + intros _. apply map_Forall_empty.
    + intros IH. rewrite map_fold_insert_first_key in IH by assumption.
      apply map_Forall_insert; [exact Hk|]. split.
      * apply (IH (size x)); [lia|reflexivity].
      * apply IHm. intros n Hn. apply IH. lia.
Qed.

(** Writing a value and reading it back changes nothing as long as all its
    numbers are finite. *)
Lemma written_finite v : finite v = true -> written v = v.
Proof.
  induction v as [| | | | |l IH|m IH] using json_induction; simpl;
    try reflexivity; try discriminate.
  - intros Hl. f_equal.
    induction IH as [|x l Hx _ IHl]; simpl in *; [reflexivity|].
    apply andb_prop in Hl as [H1 H2]. by rewrite Hx, IHl.
  - intros Hm. f_equal. revert Hm IH.
    induction m as [|k x m Hk Hfold IHm] using map_first_key_ind.
    + intros _ _. apply fmap_empty.
    + intros Hm IH. rewrite map_fold_insert_first_key in Hm by assumption.
      apply andb_prop in Hm as [H1 H2].
      apply map_Forall_insert in IH as [Hx IH]; [|exact Hk].
      rewrite fmap_insert, Hx, IHm; auto.
Qed.

(** C3 (amended): for a request that passes validation and whose upstream
    fetch is answered by a response [r]: when [r] is not ok and its status
    is one a response with a body may carry (300 to 599, 304 apart), every
    route answers with the upstream status and [{ error: <text of r> }];
    when [r] is not ok and its status is refused (304, or outside 200-599),
    building the answer throws and every route answers 500 with that
    error's message; when [r] is ok and its body parses, the oneshot,
    stream and v1 prompt routes answer 200 handing on the parsed body as it
    is, so that the client receives it unchanged as long as no number in it
    overflowed to Infinity while parsing (such a number is written null);
    the polling prompt route does so only when the body is not null and
    carries no truthy id or already reports "succeeded", and otherwise
    answers with what the polling loop ends in (the final body, or a 500
    carrying the loop's error). *)
Theorem C3_upstream_answer_handed_back (v : json) (w : world) (r : Response) :
  let key := DAYDREAM_API_KEY w in
  let stream_id := property v "stream_id" in
  let prompt := property v "prompt" in
  let image := property v "image" in
  let pipeline_id := property v "pipeline_id" in
  let answers q := result (upstream w (calls w) q) = Resolves r in
  let req := {| req_body := Parsed v |} in
  v <> JNull ->
  (ok r = false ->
     (refused (resp_status r) = None <->
      300 <= resp_status r <= 599 /\ resp_status r <> 304)) /\
  (ok r = false -> refused (resp_status r) = None ->
     handed_back r = {| res_status := resp_status r;
                        res_body := obj [("error", Some (JStr (resp_text r)))] |}) /\
  (forall message, ok r = false -> refused (resp_status r) = Some message ->
     handed_back r = {| res_status := 500;
                        res_body := obj [("error", Some (JStr message))] |}) /\
  (forall data, ok r = true -> resp_json r = Parsed data ->
     handed_back r = {| res_status := 200; res_body := data |} /\
     received (handed_back r) = written data /\
     (finite data = true -> received (handed_back r) = data)) /\
  (truthy prompt = true -> answers (OneshotRoute.generate key prompt image) ->
     (OneshotRoute.POST req w).1 = Returned (handed_back r)) /\
  (truthy pipeline_id = true ->
   answers (StreamRouteAny.create_stream (bearer_or_empty key) pipeline_id) ->
     (StreamRoute.POST req w).1 = Returned (handed_back r)) /\
  (truthy pipeline_id = true ->
   answers (StreamRouteAny.create_stream (bearer key) pipeline_id) ->
     (StreamRouteAny.POST req w).1 = Returned (handed_back r)) /\
  (truthy stream_id = true -> truthy prompt = true -> truthy image = true ->
   answers (PromptRouteV1.submit key stream_id prompt image) ->
     (PromptRouteV1.POST req w).1 = Returned (handed_back r)) /\
  (truthy stream_id = true -> truthy prompt = true ->
   answers (PromptRoute.submit key stream_id prompt image) ->
     (ok r = false -> (PromptRoute.POST req w).1 = Returned (handed_back r)) /\
     (forall initial, ok r = true -> resp_json r = Parsed initial ->
        initial <> JNull ->
        (PromptRoute.POST req w).1 =
        if truthy (property initial "id")
           && negb (is_string (property initial "status") "succeeded")
        then
          Returned (after_polling
            (PromptRoute.pollForResult stream_id (property initial "id") 10 3000
               (advance w
                  (Fetch (PromptRoute.submit key stream_id prompt image))
                  (latency (upstream w (calls w)
                              (PromptRoute.submit key stream_id prompt image)))
                  1)).1)
        else Returned (handed_back r))).
Proof.
  intros key stream_id prompt image pipeline_id answers req Hv.
  unfold answers, req.
  split; [|split; [|split; [|split; [|split; [|split; [|split;
    [|split]]]]]]].
  - intros Hok. unfold ok in Hok. unfold refused.
    destruct (resp_status r <? 200) eqn:E1; cbn [orb].
    { apply Nat.ltb_lt in E1. split; [discriminate|lia]. }
    apply Nat.ltb_ge in E1.
    destruct (599 <? resp_status r) eqn:E2.
    { apply Nat.ltb_lt in E2. split; [discriminate|lia]. }
    apply Nat.ltb_ge in E2.
    assert (E3 : 300 <= resp_status r).
    { apply andb_false_iff in Hok as [H|H].
      - apply Nat.leb_gt in H. lia.
      - apply Nat.leb_gt in H. lia. }
    destruct (resp_status r =? 204) eqn:E4;
      [apply Nat.eqb_eq in E4; lia|].
    destruct (resp_status r =? 205) eqn:E5;
      [apply Nat.eqb_eq in E5; lia|].
    destruct (resp_status r =? 304) eqn:E6; cbn [orb].
    + apply Nat.eqb_eq in E6. split; [discriminate|lia].
    + apply Nat.eqb_neq in E6. split; [lia|reflexivity].
  - intros Hok Hacc. unfold handed_back, error_relayed.
    by rewrite Hok, Hacc.
  - intros message Hok Href. unfold handed_back, error_relayed.
    by rewrite Hok, Href.
  - intros data Hok Hjson. unfold received, handed_back.
    rewrite Hok, Hjson. cbn [json_response res_body].
    split; [reflexivity|]. split; [reflexivity|apply written_finite].
  - intros Hp Ha. rewrite oneshot_run by exact Hv. fold prompt.
    rewrite Hp. unfold relay. fold key prompt image. by rewrite Ha.
  - intros Hp Ha. rewrite stream_run by exact Hv. fold pipeline_id.
    rewrite Hp. unfold relay. fold key pipeline_id. by rewrite Ha.
  - intros Hp Ha. rewrite stream_any_run by exact Hv. fold pipeline_id.
    rewrite Hp. unfold relay. fold key pipeline_id. by rewrite Ha.
  - intros Hs Hp Hi Ha. rewrite prompt_v1_run by exact Hv.
    fold stream_id prompt image. rewrite Hs, Hp, Hi. unfold relay.
    fold key stream_id prompt image. by rewrite Ha.
  - intros Hs Hp Ha. rewrite prompt_run by exact Hv.
    fold stream_id prompt image key. rewrite Hs, Hp, Ha.
    cbn [andb]. split.
    + intros Hok. unfold handed_back. by rewrite Hok.
    + intros initial Hok Hjson Hinit. rewrite Hok, Hjson.
      unfold handed_back. rewrite Hok, Hjson.
      destruct initial; try congruence;
        destruct (truthy _ && negb _); reflexivity.
Qed.

Lemma C3_upstream_answer_witness :
  (OneshotRoute.POST (body_of [("prompt", Some (JStr "a cat"))])
     (boot always_busy None)).1
  = Returned (handed_back
                {| resp_status := 503; resp_text := "Service Unavailable";
                   resp_json := Malformed "Unexpected token 'S'" |}) /\
  handed_back {| resp_status := 503; resp_text := "Service Unavailable";
                 resp_json := Malformed "Unexpected token 'S'" |}
  = {| res_status := 503;
       res_body := obj [("error", Some (JStr "Service Unavailable"))] |}.
Proof.
  split.
  - refine (proj1 (proj2 (proj2 (proj2 (proj2
      (C3_upstream_answer_handed_back
         (obj [("prompt", Some (JStr "a cat"))])
         (boot always_busy None)
         {| resp_status := 503; resp_text := "Service Unavailable";
            resp_json := Malformed "Unexpected token 'S'" |} _))))) _ _).
    + discriminate.
    + reflexivity.
    + reflexivity.
  - refine (proj1 (proj2
      (C3_upstream_answer_handed_back
         (obj [("prompt", Some (JStr "a cat"))])
         (boot always_busy None)
         {| resp_status := 503; resp_text := "Service Unavailable";
            resp_json := Malformed "Unexpected token 'S'" |} _)) _ _).
    + discriminate.
    + reflexivity.
    + reflexivity.
Defined.

(** C3 as stated fails three times.  On the polling prompt route: the
    upstream accepts the submission with an ok response whose body is a job
    in "processing", the first status check reports "failed", and the route
    answers 500 with "Prompt failed to process" instead of the upstream
    body.  On every route, for a status the response constructor refuses:
    the upstream answers 304, which is not ok, and the route answers 500
    with the constructor's error, not 304 with the upstream text.  And on
    every route, for an ok body with a number too large for a double: the
    upstream answers [[1e400]], and the client receives [[null]]. *)
Lemma C3_polled_answer_counterexample :
  fails_at_first_check 0
    (PromptRoute.submit None (Some (JStr "s1")) (Some (JStr "a cat")) None)
    = answer 200 "" (Parsed (job "p1" "processing")) /\
  ok {| resp_status := 200; resp_text := "";
        resp_json := Parsed (job "p1" "processing") |} = true /\
  (PromptRoute.POST text_prompt (boot fails_at_first_check None)).1
    = Returned {| res_status := 500;
                  res_body := obj [("error",
                                    Some (JStr "Prompt failed to process"))] |} /\
  ok {| resp_status := 304; resp_text := "Not Modified";
        resp_json := Malformed "Unexpected token 'N'" |} = false /\
  (OneshotRoute.POST (body_of [("prompt", Some (JStr "a cat"))])
     (boot not_modified None)).1
    = Returned {| res_status := 500;
                  res_body := obj [("error", Some (JStr
                    "Response constructor: Invalid response status code 304"))] |} /\
  (OneshotRoute.POST (body_of [("prompt", Some (JStr "a cat"))])
     (boot overflows None)).1
    = Returned {| res_status := 200; res_body := JArr [JInfinity false] |} /\
  received {| res_status := 200; res_body := JArr [JInfinity false] |}
    = JArr [JNull].
Proof. repeat apply conj; vm_compute; reflexivity. Qed.

(** ** The image field *)





(** ** Exceptions *)

(** C5 (the code at the failing input): a request body that is not JSON
    makes [req.json()] throw.  The v1 prompt route and the stream route that
    catches [error: any] read the body before their [try], so the exception
    leaves the handler and no response is produced; the oneshot route, the
    other stream route and the polling prompt route read it inside the
    [try] and answer 500 with the exception's message. *)
Theorem C5_body_read_outside_try (message : string) (w : world) :
  PromptRouteV1.POST {| req_body := Malformed message |} w
    = (Threw (ErrorObject message), w) /\
  StreamRouteAny.POST {| req_body := Malformed message |} w
    = (Threw (ErrorObject message), w) /\
  OneshotRoute.POST {| req_body := Malformed message |} w
    = (Returned {| res_status := 500;
                   res_body := obj [("error", Some (JStr message))] |}, w) /\
  StreamRoute.POST {| req_body := Malformed message |} w
    = (Returned {| res_status := 500;
                   res_body := obj [("error", Some (JStr message))] |}, w) /\
  PromptRoute.POST {| req_body := Malformed message |} w
    = (Returned {| res_status := 500;
                   res_body := obj [("error", Some (JStr message))] |}, w).
Proof. repeat apply conj; reflexivity. Qed.

(** A handler whose whole body is inside [try] with the [instanceof] catch
    always produces a response. *)
Lemma try_catch_instanceof_returns (m : M HttpResponse) (w : world) :
  exists resp w', try_catch m catch_instanceof w = (Returned resp, w').
Proof.
  unfold try_catch. destruct (m w) as [[resp|[message|u]] w']; simpl; eauto.
Qed.

(** X8: the oneshot route, the typed stream route and the polling prompt
    route answer every request with a response, whatever the body and
    whatever the external API does: no exception leaves these handlers. *)
Lemma guarded_routes_answer (req : Request) (w : world) :
  (exists resp w', OneshotRoute.POST req w = (Returned resp, w')) /\
  (exists resp w', StreamRoute.POST req w = (Returned resp, w')) /\
  (exists resp w', PromptRoute.POST req w = (Returned resp, w')).
Proof. repeat apply conj; apply try_catch_instanceof_returns. Qed.

(** ** When the prompt route polls *)




(** * Further properties of the routes *)

(** ** Polling: the first check that is not pending decides *)

Lemma after_turns_world q ms k : forall w,
  upstream (after_turns q ms k w) = upstream w /\
  DAYDREAM_API_KEY (after_turns q ms k w) = DAYDREAM_API_KEY w /\
  calls (after_turns q ms k w) = calls w + k /\
  trace (after_turns q ms k w) = trace w ++ schedule q ms k /\
  clock (after_turns q ms k w) =
    clock w + exchange_time (upstream w) q (calls w) k + k * ms.
Proof.
  induction k as [|k IH]; intros w; simpl.
  - rewrite app_nil_r. repeat split; lia.
  - destruct (IH (advance (advance w (Fetch q)
                             (latency (upstream w (calls w) q)) 1)
                    (Sleep ms) ms 0)) as (Hu & He & Hc & Ht & Hk).
    simpl in Hu, He, Hc, Ht, Hk. rewrite Hu, He, Hc, Ht, Hk.
    repeat split; try lia.
    + by rewrite <- !app_assoc.
    + replace (calls w + 1 + 0) with (S (calls w)) by lia. lia.
Qed.

Lemma poll_loop_pending_turn stream_id prompt_id ms n w :
  let q := PromptRoute.status_check (DAYDREAM_API_KEY w) stream_id prompt_id in
  pending (upstream w (calls w) q) = true ->
  PromptRoute.poll_loop stream_id prompt_id ms (S n) w =
  PromptRoute.poll_loop stream_id prompt_id ms n (after_turns q ms 1 w).
Proof.
  intros q Hp. rewrite poll_loop_turn. fold q. unfold pending in Hp.
  destruct (result (upstream w (calls w) q)) as [message|r]; [discriminate|].
  destruct (ok r); [|discriminate]. simpl in Hp.
  destruct (resp_json r) as [message|data]; [discriminate|].
  destruct data as [| | | | |m|]; simpl in *; try discriminate; try reflexivity.
  destruct (is_string (m !! "status") "succeeded"); [discriminate|].
  destruct (is_string (m !! "status") "failed"); [discriminate|reflexivity].
Qed.

Lemma poll_loop_skip stream_id prompt_id ms n k : forall w,
  let q := PromptRoute.status_check (DAYDREAM_API_KEY w) stream_id prompt_id in
  (forall i, i < k -> pending (upstream w (calls w + i) q) = true) ->
  PromptRoute.poll_loop stream_id prompt_id ms (k + n) w =
  PromptRoute.poll_loop stream_id prompt_id ms n (after_turns q ms k w).
Proof.
  induction k as [|k IH]; intros w q Hp; [reflexivity|].
  change (S k + n) with (S (k + n)).
  rewrite poll_loop_pending_turn.
  - fold q. simpl after_turns at 1. rewrite IH; [reflexivity|].
    intros i Hi. simpl.
    replace (calls w + 1 + 0 + i) with (calls w + S i) by lia.
    apply Hp. lia.
  - fold q. replace (calls w) with (calls w + 0) by lia. apply Hp. lia.
Qed.

(** X1: when the first [k] status checks are pending and the next one
    reports "succeeded" within the budget, the loop returns that body after
    exactly [k + 1] checks and [k] waits. *)
Theorem poll_returns_first_success stream_id prompt_id maxAttempts interval
    (k : nat) (w : world) (r : Response) (data : json) :
  let q := PromptRoute.status_check (DAYDREAM_API_KEY w) stream_id prompt_id in
  let x := upstream w (calls w + k) q in
  k < maxAttempts ->
  (forall i, i < k -> pending (upstream w (calls w + i) q) = true) ->
  result x = Resolves r ->
  ok r = true ->
  resp_json r = Parsed data ->
  is_string (property data "status") "succeeded" = true ->
  exists w',
    PromptRoute.pollForResult stream_id prompt_id maxAttempts interval w
      = (Returned data, w') /\
    trace w' = trace w ++ schedule q interval k ++ [Fetch q] /\
    calls w' = calls w + k + 1 /\
    clock w' =
      clock w + exchange_time (upstream w) q (calls w) k + latency x
      + k * interval.
Proof.
  intros q x Hk Hpend Hres Hok Hjson Hs.
  unfold PromptRoute.pollForResult.
  replace maxAttempts with (k + S (maxAttempts - S k)) by lia.
  rewrite poll_loop_skip by exact Hpend. fold q.
  destruct (after_turns_world q interval k w) as (Hu & He & Hc & Ht & Hcl).
  rewrite poll_loop_turn. rewrite He, Hu, Hc. fold q. fold x.
  rewrite Hres, Hok, Hjson.
  destruct data as [| | | | |m|]; try discriminate.
  simpl in Hs. simpl. rewrite Hs.
  eexists. split; [reflexivity|]. simpl. rewrite Ht, Hc, Hcl.
  repeat split; try lia. by rewrite <- app_assoc.
Qed.

Lemma poll_returns_first_success_witness :
  exists w',
    PromptRoute.pollForResult (Some (JStr "s1")) (Some (JStr "p1")) 10 3000
      (boot (fun n _ => match n with
                        | 2 => answer 200 "" (Parsed (job "p1" "succeeded"))
                        | _ => answer 200 "" (Parsed (job "p1" "processing"))
                        end) None)
      = (Returned (job "p1" "succeeded"), w') /\
    trace w' = [] ++
      schedule (PromptRoute.status_check None (Some (JStr "s1"))
                  (Some (JStr "p1"))) 3000 2 ++
      [Fetch (PromptRoute.status_check None (Some (JStr "s1"))
                (Some (JStr "p1")))] /\
    calls w' = 0 + 2 + 1 /\
    clock w' = 0 + (40 + (40 + 0)) + 40 + 2 * 3000.
Proof.
  apply (poll_returns_first_success (Some (JStr "s1")) (Some (JStr "p1"))
           10 3000 2
           (boot (fun n _ => match n with
                             | 2 => answer 200 "" (Parsed (job "p1" "succeeded"))
                             | _ => answer 200 "" (Parsed (job "p1" "processing"))
                             end) None)
           {| resp_status := 200; resp_text := "";
              resp_json := Parsed (job "p1" "succeeded") |}
           (job "p1" "succeeded")).
  - lia.
  - intros i Hi. destruct i as [|[|i]]; [reflexivity|reflexivity|lia].
  - reflexivity.
  - reflexivity.
  - reflexivity.
  - reflexivity.
Defined.

(** X2: when the first [k] status checks are pending and the next one,
    still within the budget, fails, the loop stops there, after exactly
    [k + 1] checks, and throws an [Error] that tells how it failed: the
    rejection message when the fetch rejects, the text of the answer when
    the answer is not ok, the parser's message when an ok answer is not
    JSON, and "Prompt failed to process" when the body reports "failed". *)
Theorem poll_stops_at_first_failure stream_id prompt_id maxAttempts interval
    (k : nat) (w : world) :
  let q := PromptRoute.status_check (DAYDREAM_API_KEY w) stream_id prompt_id in
  let x := upstream w (calls w + k) q in
  let w' := advance (after_turns q interval k w) (Fetch q) (latency x) 1 in
  let run := PromptRoute.pollForResult stream_id prompt_id maxAttempts
               interval w in
  k < maxAttempts ->
  (forall i, i < k -> pending (upstream w (calls w + i) q) = true) ->
  calls w' = calls w + k + 1 /\
  (forall message, result x = Rejects message ->
     run = (Threw (ErrorObject message), w')) /\
  (forall r, result x = Resolves r -> ok r = false ->
     run = (Threw (ErrorObject (resp_text r)), w')) /\
  (forall r message, result x = Resolves r -> ok r = true ->
     resp_json r = Malformed message ->
     run = (Threw (ErrorObject message), w')) /\
  (forall r data, result x = Resolves r -> ok r = true ->
     resp_json r = Parsed data ->
     is_string (property data "status") "succeeded" = false ->
     is_string (property data "status") "failed" = true ->
     run = (Threw (ErrorObject "Prompt failed to process"), w')).
Proof.
  intros q x w' run Hk Hpend.
  destruct (after_turns_world q interval k w) as (Hu & He & Hc & Ht & Hcl).
  assert (Hrun : run =
    PromptRoute.poll_loop stream_id prompt_id interval
      (S (maxAttempts - S k)) (after_turns q interval k w)).
  { unfold run, PromptRoute.pollForResult.
    replace maxAttempts with (k + S (maxAttempts - S k)) at 1 by lia.
    by rewrite poll_loop_skip by exact Hpend. }
  rewrite poll_loop_turn in Hrun. rewrite He, Hu, Hc in Hrun.
  fold q in Hrun. fold x in Hrun. fold w' in Hrun.
  split; [subst w'; simpl; lia|].
  split; [|split; [|split]].
  - intros message Hres. by rewrite Hrun, Hres.
  - intros r Hres Hok. by rewrite Hrun, Hres, Hok.
  - intros r message Hres Hok Hjson. by rewrite Hrun, Hres, Hok, Hjson.
  - intros r data Hres Hok Hjson Hs Hf. rewrite Hrun, Hres, Hok, Hjson.
    destruct data; try discriminate. simpl in Hs, Hf. simpl.
    by rewrite Hs, Hf.
Qed.

Lemma poll_stops_at_first_failure_witness :
  PromptRoute.pollForResult (Some (JStr "s1")) (Some (JStr "p1")) 10 3000
    (boot always_busy None)
  = (Threw (ErrorObject "Service Unavailable"),
     advance (boot always_busy None)
       (Fetch (PromptRoute.status_check None (Some (JStr "s1"))
                 (Some (JStr "p1")))) 40 1).
Proof.
  refine (proj1 (proj2 (proj2
    (poll_stops_at_first_failure (Some (JStr "s1")) (Some (JStr "p1"))
       10 3000 0 (boot always_busy None) _ _)))
    {| resp_status := 503; resp_text := "Service Unavailable";
       resp_json := Malformed "Unexpected token 'S'" |} _ _).
  - lia.
  - intros i Hi. lia.
  - reflexivity.
  - reflexivity.
Defined.

(** X3: when the polling prompt route got an ok answer to its submission
    whose body carries a truthy id, an answer of the route with status 200
    always carries a body that reports "succeeded": either the initial body
    that already did, or the body the polling loop ended on. *)
Theorem polled_200_reports_succeeded (v initial : json) (r0 : Response)
    (w : world) (resp : HttpResponse) (w' : world) :
  let q0 := PromptRoute.submit (DAYDREAM_API_KEY w) (property v "stream_id")
              (property v "prompt") (property v "image") in
  result (upstream w (calls w) q0) = Resolves r0 ->
  ok r0 = true ->
  resp_json r0 = Parsed initial ->
  truthy (property initial "id") = true ->
  PromptRoute.POST {| req_body := Parsed v |} w = (Returned resp, w') ->
  res_status resp = 200 ->
  is_string (property (res_body resp) "status") "succeeded" = true.
Proof.
  intros q0 Hres Hok Hjson Hid Hpost Hstatus.
  assert (Hcase : v = JNull \/ v <> JNull)
    by (destruct v; [by left|by right..]).
  destruct Hcase as [->|Hv].
  { vm_compute in Hpost. injection Hpost as <- _. discriminate. }
  rewrite prompt_run in Hpost by exact Hv. fold q0 in Hpost.
  destruct (truthy (property v "stream_id") && truthy (property v "prompt")).
  2:{ injection Hpost as <- _. discriminate. }
  rewrite Hres, Hok, Hjson in Hpost.
  destruct initial as [| | | | |m|]; try discriminate.
  rewrite Hid in Hpost. cbn [andb] in Hpost.
  destruct (is_string (property (JObj m) "status") "succeeded") eqn:Hs;
    cbn [negb] in Hpost.
  - injection Hpost as <- _. exact Hs.
  - injection Hpost as <- _.
    unfold PromptRoute.pollForResult in *.
    pose proof (poll_loop_outcome (property v "stream_id")
                  (property (JObj m) "id") PromptRoute.interval_default
                  PromptRoute.maxAttempts_default
                  (advance w (Fetch q0) (latency (upstream w (calls w) q0)) 1))
      as Hout.
    destruct (PromptRoute.poll_loop _ _ _ _ _) as [[data|[message|u]] w2];
      cbn [fst after_polling] in *;
      [exact Hout|discriminate|discriminate].
Qed.

Lemma polled_200_reports_succeeded_witness :
  is_string
    (property
       (res_body (json_response (job "p1" "succeeded") 200)) "status")
    "succeeded" = true.
Proof.
  apply (polled_200_reports_succeeded
           (obj [("stream_id", Some (JStr "s1")); ("prompt", Some (JStr "a cat"))])
           (job "p1" "processing")
           {| resp_status := 200; resp_text := "";
              resp_json := Parsed (job "p1" "processing") |}
           (boot (fun n _ => match n with
                             | 2 => answer 200 "" (Parsed (job "p1" "succeeded"))
                             | _ => answer 200 "" (Parsed (job "p1" "processing"))
                             end) None)
           (json_response (job "p1" "succeeded") 200)
           (PromptRoute.POST text_prompt
              (boot (fun n _ => match n with
                                | 2 => answer 200 "" (Parsed (job "p1" "succeeded"))
                                | _ => answer 200 "" (Parsed (job "p1" "processing"))
                                end) None)).2);
    reflexivity.
Defined.

(** ** What the routes send upstream, and how often *)

(** X4: a call of a forwarding route makes at most one request to the
    external API, whatever the request and whatever the API answers; a call
    of the polling prompt route makes at most eleven (the submission and
    ten status checks). *)
Theorem routes_bound_their_fetches (req : Request) (w : world) :
  calls (OneshotRoute.POST req w).2 <= calls w + 1 /\
  calls (StreamRoute.POST req w).2 <= calls w + 1 /\
  calls (StreamRouteAny.POST req w).2 <= calls w + 1 /\
  calls (PromptRouteV1.POST req w).2 <= calls w + 1 /\
  calls (PromptRoute.POST req w).2 <= calls w + 11.
Proof.
  destruct req as [[message|v]].
  { repeat apply conj; simpl; lia. }
  assert (Hcase : v = JNull \/ v <> JNull)
    by (destruct v; [by left|by right..]).
  destruct Hcase as [->|Hv].
  { repeat apply conj; simpl; lia. }
  repeat apply conj.
  - rewrite oneshot_run by exact Hv. destruct (truthy _); simpl; lia.
  - rewrite stream_run by exact Hv. destruct (truthy _); simpl; lia.
  - rewrite stream_any_run by exact Hv. destruct (truthy _); simpl; lia.
  - rewrite prompt_v1_run by exact Hv.
    destruct (_ && _); simpl; lia.
  - rewrite prompt_run by exact Hv.
    destruct (_ && _); [|simpl; lia].
    destruct (result _) as [message|r]; [simpl; lia|].
    destruct (ok r); [|simpl; lia].
    destruct (resp_json r) as [message|initial]; [simpl; lia|].
    destruct initial; try (simpl; lia);
      (destruct (truthy _ && negb _); [|simpl; lia]);
      cbn [snd]; unfold PromptRoute.pollForResult;
      match goal with
      | |- context [PromptRoute.poll_loop ?a ?b ?c ?d ?e] =>
          destruct (poll_loop_run a b c d e) as (t & _ & Hp & Hc & _)
      end; cbv zeta in Hp, Hc; rewrite Hc;
      apply prefix_schedule_bounds in Hp; destruct Hp as [Hf _];
      unfold PromptRoute.maxAttempts_default in Hf; simpl; lia.
Qed.

(** X5: when the fetch of a request that passed validation rejects (the
    network fails), every route answers 500 with the rejection message under
    the key error, including the two routes that read the body outside
    their [try]. *)
Theorem rejected_fetch_is_a_500 (v : json) (w : world) (message : string) :
  let key := DAYDREAM_API_KEY w in
  let stream_id := property v "stream_id" in
  let prompt := property v "prompt" in
  let image := property v "image" in
  let pipeline_id := property v "pipeline_id" in
  let rejects q := result (upstream w (calls w) q) = Rejects message in
  let req := {| req_body := Parsed v |} in
  let failure := {| res_status := 500;
                    res_body := obj [("error", Some (JStr message))] |} in
  v <> JNull ->
  (truthy prompt = true -> rejects (OneshotRoute.generate key prompt image) ->
     (OneshotRoute.POST req w).1 = Returned failure) /\
  (truthy pipeline_id = true ->
   rejects (StreamRouteAny.create_stream (bearer_or_empty key) pipeline_id) ->
     (StreamRoute.POST req w).1 = Returned failure) /\
  (truthy pipeline_id = true ->
   rejects (StreamRouteAny.create_stream (bearer key) pipeline_id) ->
     (StreamRouteAny.POST req w).1 = Returned failure) /\
  (truthy stream_id = true -> truthy prompt = true -> truthy image = true ->
   rejects (PromptRouteV1.submit key stream_id prompt image) ->
     (PromptRouteV1.POST req w).1 = Returned failure) /\
  (truthy stream_id = true -> truthy prompt = true ->
   rejects (PromptRoute.submit key stream_id prompt image) ->
     (PromptRoute.POST req w).1 = Returned failure).
Proof.
  intros key stream_id prompt image pipeline_id rejects req failure Hv.
  unfold rejects, req.
  split; [|split; [|split; [|split]]].
  - intros Hp Ha. rewrite oneshot_run by exact Hv. fold prompt.
    rewrite Hp. unfold relay. fold key prompt image. by rewrite Ha.
  - intros Hp Ha. rewrite stream_run by exact Hv. fold pipeline_id.
    rewrite Hp. unfold relay. fold key pipeline_id. by rewrite Ha.
  - intros Hp Ha. rewrite stream_any_run by exact Hv. fold pipeline_id.
    rewrite Hp. unfold relay. fold key pipeline_id. by rewrite Ha.
  - intros Hs Hp Hi Ha. rewrite prompt_v1_run by exact Hv.
    fold stream_id prompt image. rewrite Hs, Hp, Hi. unfold relay.
    fold key stream_id prompt image. by rewrite Ha.
  - intros Hs Hp Ha. rewrite prompt_run by exact Hv.
    fold stream_id prompt image key. by rewrite Hs, Hp, Ha.
Qed.

Lemma rejected_fetch_is_a_500_witness :
  (StreamRouteAny.POST (body_of [("pipeline_id", Some (JStr "pip_1"))])
     (boot (fun _ _ => {| result := Rejects "fetch failed"; latency := 5 |})
        None)).1
  = Returned {| res_status := 500;
                res_body := obj [("error", Some (JStr "fetch failed"))] |}.
Proof.
  refine (proj1 (proj2 (proj2
    (rejected_fetch_is_a_500 (obj [("pipeline_id", Some (JStr "pip_1"))])
       (boot (fun _ _ => {| result := Rejects "fetch failed"; latency := 5 |})
          None)
       "fetch failed" _))) _ _).
  - discriminate.
  - reflexivity.
  - reflexivity.
Defined.

Lemma authorized_prefix_schedule authorization q ms n t :
  authorized authorization (Fetch q) ->
  t `prefix_of` schedule q ms n ->
  Forall (authorized authorization) t.
Proof.
  intros Hq [rest E].
  assert (Hall : Forall (authorized authorization) (schedule q ms n)).
  { clear E. induction n as [|n IH]; simpl; [constructor|].
    constructor; [exact Hq|]. constructor; [exact I|exact IH]. }
  rewrite E in Hall. by apply Forall_app in Hall as [Ht _].
Qed.

(** X6: every request a route sends during a call goes to
    [https://api.daydream.live/] and carries the Authorization header made
    of "Bearer " and the API key: with the key's absence read as the empty
    string in the oneshot route, the typed stream route and the polling
    prompt route (status checks included), and as the text "undefined" in
    the two routes that catch [error: any]. *)
Theorem routes_send_only_authorized_requests (req : Request) (w : world) :
  let key := DAYDREAM_API_KEY w in
  (exists t, trace (OneshotRoute.POST req w).2 = trace w ++ t /\
             Forall (authorized ("Bearer " +:+ default "" key)) t) /\
  (exists t, trace (StreamRoute.POST req w).2 = trace w ++ t /\
             Forall (authorized ("Bearer " +:+ default "" key)) t) /\
  (exists t, trace (PromptRoute.POST req w).2 = trace w ++ t /\
             Forall (authorized ("Bearer " +:+ default "" key)) t) /\
  (exists t, trace (StreamRouteAny.POST req w).2 = trace w ++ t /\
             Forall (authorized ("Bearer " +:+ default "undefined" key)) t) /\
  (exists t, trace (PromptRouteV1.POST req w).2 = trace w ++ t /\
             Forall (authorized ("Bearer " +:+ default "undefined" key)) t).
Proof.
  intros key.
  assert (Hnone : forall a, exists t : list event,
            trace w = trace w ++ t /\ Forall (authorized a) t).
  { intros a. exists []. split; [by rewrite app_nil_r|constructor]. }
  assert (Hone : forall a q, authorized a (Fetch q) ->
            exists t : list event,
              trace w ++ [Fetch q] = trace w ++ t /\ Forall (authorized a) t).
  { intros a q Hq. exists [Fetch q]. split; [reflexivity|].
    constructor; [exact Hq|constructor]. }
  destruct req as [[message|v]].
  { repeat apply conj; apply Hnone. }
  assert (Hcase : v = JNull \/ v <> JNull)
    by (destruct v; [by left|by right..]).
  destruct Hcase as [->|Hv].
  { repeat apply conj; apply Hnone. }
  repeat apply conj.
  - rewrite oneshot_run by exact Hv.
    destruct (truthy _); [apply Hone|apply Hnone]. by split.
  - rewrite stream_run by exact Hv.
    destruct (truthy _); [apply Hone|apply Hnone]. by split.
  - rewrite prompt_run by exact Hv.
    destruct (_ && _); [|apply Hnone].
    set (q0 := PromptRoute.submit _ _ _ _).
    assert (Hq0 : authorized ("Bearer " +:+ default "" key) (Fetch q0))
      by (by split).
    set (w1 := advance w (Fetch q0) _ 1).
    destruct (result _) as [message|r]; [by apply Hone|].
    destruct (ok r); [|by apply Hone].
    destruct (resp_json r) as [message|initial]; [by apply Hone|].
    destruct initial; try (by apply Hone);
      (destruct (truthy _ && negb _); [|by apply Hone]);
      cbn [snd]; unfold PromptRoute.pollForResult;
      match goal with
      | |- context [PromptRoute.poll_loop ?a ?b ?c ?d w1] =>
          destruct (poll_loop_run a b c d w1) as (t & Ht & Hp & _)
      end; cbv zeta in Ht, Hp; rewrite Ht;
      exists (Fetch q0 :: t); (split; [simpl; by rewrite <- app_assoc|]);
      (constructor; [exact Hq0|]);
      (eapply authorized_prefix_schedule; [|exact Hp]); by split.
  - rewrite stream_any_run by exact Hv.
    destruct (truthy _); [apply Hone|apply Hnone]. by split.
  - rewrite prompt_v1_run by exact Hv.
    destruct (_ && _); [apply Hone|apply Hnone]. by split.
Qed.





(** * Further properties of the signaling relay *)

(** X9: the relay never takes a socket out of a room: a socket that a
    broadcast to a room reaches keeps being reached after any further
    connections and joinSession events, of its own (to other rooms) or of
    other sockets. *)
Theorem rooms_only_grow (before after : list Signaling.incoming)
    (socket room : string) :
  socket ∈ Signaling.reached room (Signaling.serve before) ->
  socket ∈ Signaling.reached room (Signaling.serve (before ++ after)).
Proof.
  unfold Signaling.serve. rewrite foldl_app.
  intros H. apply reached_foldl. by left.
Qed.

Lemma rooms_only_grow_witness :
  "socket-1" ∈ Signaling.reached "abc"
    (Signaling.serve ([Signaling.JoinSession "socket-1" "abc"] ++
                      [Signaling.JoinSession "socket-1" "xyz";
                       Signaling.Connection "socket-2";
                       Signaling.JoinSession "socket-2" "abc"])).
Proof.
  apply (rooms_only_grow [Signaling.JoinSession "socket-1" "abc"]).
  vm_compute. reflexivity.
Defined.

(** X10: as long as no socket goes away, who is reached depends only on
    which connection and joinSession events arrived, not on their order nor
    on repetitions: two histories with the same events give every room the
    same members. *)
Theorem rooms_ignore_order_and_repeats (events1 events2 : list Signaling.incoming) :
  (forall e, e ∈ events1 <-> e ∈ events2) ->
  forall room,
    Signaling.reached room (Signaling.serve events1)
    = Signaling.reached room (Signaling.serve events2).
Proof.
  intros Hsame room. apply set_eq. intros socket.
  rewrite !reached_serve, !Hsame. tauto.
Qed.

Lemma rooms_ignore_order_and_repeats_witness :
  Signaling.reached "abc"
    (Signaling.serve [Signaling.Connection "Zq3vXo1hTnB8sKdWAAAB";
                      Signaling.JoinSession "Zq3vXo1hTnB8sKdWAAAB" "abc";
                      Signaling.Connection "m0PfYc7uRjL2eGaHAAAD";
                      Signaling.JoinSession "m0PfYc7uRjL2eGaHAAAD" "abc"])
  = Signaling.reached "abc"
      (Signaling.serve [Signaling.Connection "m0PfYc7uRjL2eGaHAAAD";
                        Signaling.Connection "Zq3vXo1hTnB8sKdWAAAB";
                        Signaling.JoinSession "m0PfYc7uRjL2eGaHAAAD" "abc";
                        Signaling.JoinSession "Zq3vXo1hTnB8sKdWAAAB" "abc";
                        Signaling.JoinSession "m0PfYc7uRjL2eGaHAAAD" "abc"]).
Proof.
  apply rooms_ignore_order_and_repeats.
  intros e. rewrite !list_elem_of_In. simpl. tauto.
Defined.

(** * The board page *)

(** ** Finding the image in an answer *)

(** X11: [extractImageUrlFromDaydreamResponse] gives null for everything
    that is not a JSON object: undefined, null, booleans, numbers, strings,
    and arrays too (an array passes the [typeof] test but has none of the
    properties that are looked up). *)
Theorem extract_needs_an_object (res : option json) :
  (forall m, res <> Some (JObj m)) ->
  BoardClient.extractImageUrlFromDaydreamResponse res = None.
Proof.
  intros Hres. destruct res as [[| | | | |m|]|]; try reflexivity.
  by destruct (Hres m).
Qed.

Lemma extract_needs_an_object_witness :
  BoardClient.extractImageUrlFromDaydreamResponse
    (Some (JArr [obj [("url", Some (JStr "https://cdn/x.png"))]])) = None.
Proof. apply extract_needs_an_object. discriminate. Defined.

(** X12: on an object, the url is looked for in a fixed order: a string
    [output_url] wins over everything else; failing that, the url of the
    first entry of [outputs], then of [images], then of [data], then of
    [result]; the answer is null exactly when none of the five is there,
    and otherwise it is one of them. *)
Theorem extract_order (m : gmap string json) :
  let extract := BoardClient.extractImageUrlFromDaydreamResponse (Some (JObj m)) in
  let direct := match m !! "output_url" with
                | Some (JStr u) => Some u
                | _ => None
                end in
  let outputs := BoardClient.first_url (m !! "outputs") in
  let images := BoardClient.first_url (m !! "images") in
  let data := BoardClient.first_url (m !! "data") in
  let result := BoardClient.first_url (m !! "result") in
  (forall u, direct = Some u -> extract = Some u) /\
  (forall u, direct = None -> outputs = Some u -> extract = Some u) /\
  (forall u, direct = None -> outputs = None -> images = Some u ->
     extract = Some u) /\
  (forall u, direct = None -> outputs = None -> images = None ->
     data = Some u -> extract = Some u) /\
  (direct = None -> outputs = None -> images = None -> data = None ->
     extract = result) /\
  (extract = None <->
     direct = None /\ outputs = None /\ images = None /\ data = None /\
     result = None) /\
  (forall u, extract = Some u ->
     In (Some u) [direct; outputs; images; data; result]).
Proof.
  intros extract direct outputs images data result.
  assert (Hx : extract =
    match direct with
    | Some u => Some u
    | None =>
        match outputs with
        | Some u => Some u
        | None =>
            match images with
            | Some u => Some u
            | None => match data with Some u => Some u | None => result end
            end
        end
    end).
  { subst extract direct outputs images data result.
    unfold BoardClient.extractImageUrlFromDaydreamResponse. simpl.
    destruct (m !! "output_url") as [[| | | | | |]|]; reflexivity. }
  rewrite Hx. clear Hx.
  destruct direct, outputs, images, data, result; simpl;
    repeat apply conj; intros; simplify_eq; try tauto;
    try (split; intros; simplify_eq; tauto);
    try reflexivity; intuition congruence.
Qed.

Lemma extract_order_witness :
  BoardClient.extractImageUrlFromDaydreamResponse
    (Some (JObj (<["outputs" :=
                     JArr [obj [("url", Some (JStr "https://cdn/a.png"))]]]>
                   (<["images" :=
                        JArr [obj [("url", Some (JStr "https://cdn/b.png"))]]]>
                      ∅))))
  = Some "https://cdn/a.png".
Proof.
  refine (proj1 (proj2
    (extract_order
       (<["outputs" := JArr [obj [("url", Some (JStr "https://cdn/a.png"))]]]>
          (<["images" :=
               JArr [obj [("url", Some (JStr "https://cdn/b.png"))]]]> ∅))))
    "https://cdn/a.png" _ _); reflexivity.
Defined.

(** X13: of an array only the first entry is consulted: what follows the
    first entry of [outputs], [images], [data] or [result] never changes
    the answer, even when the first entry has no url and a later one has. *)
Theorem extract_reads_first_entry_only (m : gmap string json)
    (k : string) (first : json) (rest : list json) :
  BoardClient.extractImageUrlFromDaydreamResponse
    (Some (JObj (<[k := JArr (first :: rest)]> m)))
  = BoardClient.extractImageUrlFromDaydreamResponse
      (Some (JObj (<[k := JArr [first]]> m))).
Proof.
  unfold BoardClient.extractImageUrlFromDaydreamResponse. simpl.
  assert (Hk : forall k', 
    BoardClient.first_url (<[k := JArr (first :: rest)]> m !! k')
    = BoardClient.first_url (<[k := JArr [first]]> m !! k')).
  { intros k'. rewrite !lookup_insert. by destruct (decide (k = k')). }
  rewrite !Hk.
  destruct (decide (k = "output_url")) as [->|Hne].
  - by rewrite !lookup_insert_eq.
  - by rewrite !(lookup_insert_ne _ k "output_url") by exact Hne.
Qed.

(** ** What the board posts to the prompt route *)



(** ** The board's pages *)

(** X15: [saveCanvasState] does nothing without an editor; saving the same
    snapshot again changes nothing (the second call is skipped); and a
    save never adds, removes, reorders or renames a page, never switches
    the active page, and leaves every page but the active one as it was. *)
Theorem save_is_idempotent_and_local (JSON_stringify : json -> string)
    (editor : option json) (st : BoardPages.board) :
  let st' := BoardPages.saveCanvasState JSON_stringify editor st in
  BoardPages.saveCanvasState JSON_stringify editor st' = st' /\
  BoardPages.saveCanvasState JSON_stringify None st = st /\
  map BoardPages.id (BoardPages.pages st')
    = map BoardPages.id (BoardPages.pages st) /\
  map BoardPages.name (BoardPages.pages st')
    = map BoardPages.name (BoardPages.pages st) /\
  BoardPages.activePageId st' = BoardPages.activePageId st /\
  Forall2 (fun p p' => BoardPages.id p <> BoardPages.activePageId st -> p' = p)
    (BoardPages.pages st) (BoardPages.pages st').
Proof.
  intros st'. subst st'. unfold BoardPages.saveCanvasState.
  destruct editor as [snapshot|].
  2:{ repeat apply conj; try reflexivity.
      apply Forall_Forall2_diag, Forall_forall. by intros. }
  destruct (decide (Some (JSON_stringify snapshot) = BoardPages.lastSavedState st))
    as [Heq|Hne].
  { rewrite decide_True by exact Heq. repeat apply conj; try reflexivity.
    apply Forall_Forall2_diag, Forall_forall. by intros. }
  cbn [BoardPages.lastSavedState BoardPages.pages BoardPages.activePageId].
  rewrite decide_True by reflexivity.
  repeat apply conj; try reflexivity.
  - rewrite map_map. apply map_ext. intros p. by destruct (String.eqb _ _).
  - rewrite map_map. apply map_ext. intros p. by destruct (String.eqb _ _).
  - induction (BoardPages.pages st) as [|p ps IH]; simpl; constructor;
      [|exact IH].
    intros Hp. destruct (String.eqb _ _) eqn:E; [|reflexivity].
    by apply String.eqb_eq in E.
Qed.

(** X16: [handleRenamePage] never changes which pages there are, their
    order, their canvas data or the active page.  A name that trims to the
    empty string is refused with a toast and no page changes; any other
    name is given, untrimmed, to exactly the pages with the given id, so an
    id that no page has changes nothing. *)
Theorem rename_touches_names_only (trim : string -> string)
    (page newName : string) (st : BoardPages.board) :
  let st' := BoardPages.handleRenamePage trim page newName st in
  map BoardPages.id (BoardPages.pages st')
    = map BoardPages.id (BoardPages.pages st) /\
  map BoardPages.canvasData (BoardPages.pages st')
    = map BoardPages.canvasData (BoardPages.pages st) /\
  BoardPages.activePageId st' = BoardPages.activePageId st /\
  (trim newName = "" ->
     BoardPages.pages st' = BoardPages.pages st /\
     BoardPages.toasts st'
       = BoardPages.toasts st ++ ["Page name cannot be empty."]) /\
  (trim newName <> "" ->
     BoardPages.toasts st' = BoardPages.toasts st /\
     map BoardPages.name (BoardPages.pages st')
       = map (fun p => if String.eqb (BoardPages.id p) page then newName
                       else BoardPages.name p) (BoardPages.pages st) /\
     (page ∉ map BoardPages.id (BoardPages.pages st) ->
        BoardPages.pages st' = BoardPages.pages st)).
Proof.
  intros st'. subst st'. unfold BoardPages.handleRenamePage.
  destruct (String.eqb (trim newName) "") eqn:E.
  - apply String.eqb_eq in E. repeat apply conj; try reflexivity.
    + intros _. split; reflexivity.
    + intros H. congruence.
  - apply String.eqb_neq in E. simpl.
    repeat apply conj; try reflexivity.
    + rewrite map_map. apply map_ext. intros p. by destruct (String.eqb _ _).
    + rewrite map_map. apply map_ext. intros p. by destruct (String.eqb _ _).
    + intros H. congruence.
    + intros _. repeat apply conj; try reflexivity.
      * rewrite map_map. apply map_ext. intros p.
        by destruct (String.eqb _ _).
      * intros Hnot.
        induction (BoardPages.pages st) as [|p ps IH]; simpl; [reflexivity|].
        simpl in Hnot. apply not_elem_of_cons in Hnot as [Hp Hps].
        rewrite IH by exact Hps.
        destruct (String.eqb _ _) eqn:E'; [|reflexivity].
        apply String.eqb_eq in E'. congruence.
Qed.

Lemma rename_touches_names_only_witness :
  BoardPages.pages
    (BoardPages.handleRenamePage (fun s => s) "abc-def-ghi" ""
       {| BoardPages.pages :=
            [{| BoardPages.id := "abc-def-ghi"; BoardPages.name := "Page 1";
                BoardPages.canvasData := None |}];
          BoardPages.activePageId := "abc-def-ghi";
          BoardPages.lastSavedState := None;
          BoardPages.toasts := []; BoardPages.console := [] |})
  = [{| BoardPages.id := "abc-def-ghi"; BoardPages.name := "Page 1";
        BoardPages.canvasData := None |}].
Proof.
  refine (proj1 (proj1 (proj2 (proj2 (proj2
    (rename_touches_names_only (fun s => s) "abc-def-ghi" "" _)))) _)).
  reflexivity.
Defined.

Lemma remaining_pages (page : string) (l : list BoardPages.PageData) :
  let r := List.filter
             (fun p => negb (String.eqb (BoardPages.id p) page)) l in
  NoDup (map BoardPages.id l) ->
  NoDup (map BoardPages.id r) /\
  (forall x, x ∈ map BoardPages.id r <->
             x ∈ map BoardPages.id l /\ x <> page) /\
  (forall p, p ∈ r <-> p ∈ l /\ BoardPages.id p <> page) /\
  length l <= S (length r) /\
  (page ∈ map BoardPages.id l -> length l = S (length r)).
Proof.
  induction l as [|p l IH]; simpl; intros Hnd.
  - repeat apply conj; try lia.
    + constructor.
    + intros x. rewrite elem_of_nil. tauto.
    + intros x. rewrite elem_of_nil. tauto.
    + intros H. by apply elem_of_nil in H.
  - apply NoDup_cons in Hnd as [Hp Hnd].
    destruct (IH Hnd) as (IH1 & IH2 & IH3 & IH4 & IH5).
    destruct (String.eqb (BoardPages.id p) page) eqn:E; simpl.
    + apply String.eqb_eq in E.
      assert (Hlen : length l = length
                (List.filter
                   (fun p0 => negb (String.eqb (BoardPages.id p0) page)) l)).
      { clear IH IH1 IH2 IH3 IH4 IH5 Hnd. rewrite E in Hp.
        induction l as [|q l IHl]; simpl; [reflexivity|].
        apply not_elem_of_cons in Hp as [Hq Hl].
        destruct (String.eqb (BoardPages.id q) page) eqn:E'.
        - apply String.eqb_eq in E'. congruence.
        - simpl. by rewrite <- IHl. }
      repeat apply conj.
      * exact IH1.
      * intros x. rewrite IH2, elem_of_cons. intuition congruence.
      * intros x. rewrite IH3, elem_of_cons. intuition congruence.
      * lia.
      * intros _. lia.
    + apply String.eqb_neq in E. repeat apply conj.
      * apply NoDup_cons. split; [|exact IH1].
        rewrite IH2. tauto.
      * intros x. rewrite !elem_of_cons, IH2. intuition congruence.
      * intros x. rewrite !elem_of_cons, IH3. intuition congruence.
      * lia.
      * intros H. apply elem_of_cons in H as [H|H]; [congruence|].
        specialize (IH5 H). lia.
Qed.

Lemma filter_keeps_the_order {A} (f : A -> bool) (l : list A) :
  List.filter f l `sublist_of` l.
Proof.
  induction l as [|a l IH]; simpl; [constructor|].
  destruct (f a); by constructor.
Qed.

(** X17: on a board whose pages are in order (there is a page, no two
    pages share an id, the active page is one of them) [handleDeletePage]
    never throws and leaves the pages in order.  The only page of a board
    is never deleted (a toast says so); otherwise exactly the page with the
    given id goes and the others stay, in the order they were in, without
    a toast.  When the page deleted was the active one, the first of the
    remaining pages becomes active and the last saved snapshot is
    forgotten; otherwise the active page and the snapshot stay as they
    were. *)
Theorem delete_keeps_the_pages_in_order (page : string)
    (st : BoardPages.board) :
  BoardPages.well_formed st ->
  exists st',
    BoardPages.handleDeletePage page st = Returned st' /\
    BoardPages.well_formed st' /\
    (length (BoardPages.pages st) = 1 ->
       BoardPages.pages st' = BoardPages.pages st /\
       BoardPages.activePageId st' = BoardPages.activePageId st /\
       BoardPages.toasts st'
         = BoardPages.toasts st ++ ["Cannot delete the last page."]) /\
    (1 < length (BoardPages.pages st) ->
       (forall p, p ∈ BoardPages.pages st' <->
                  p ∈ BoardPages.pages st /\ BoardPages.id p <> page) /\
       (page ∈ map BoardPages.id (BoardPages.pages st) ->
          S (length (BoardPages.pages st')) = length (BoardPages.pages st)) /\
       (BoardPages.activePageId st <> page ->
          BoardPages.activePageId st' = BoardPages.activePageId st /\
          BoardPages.lastSavedState st' = BoardPages.lastSavedState st) /\
       BoardPages.pages st' `sublist_of` BoardPages.pages st /\
       (BoardPages.activePageId st = page ->
          head (map BoardPages.id (BoardPages.pages st'))
            = Some (BoardPages.activePageId st') /\
          BoardPages.lastSavedState st' = None) /\
       BoardPages.toasts st' = BoardPages.toasts st).
Proof.
  intros (Hne & Hnd & Hact). unfold BoardPages.handleDeletePage.
  destruct (length (BoardPages.pages st) =? 1) eqn:E.
  - apply Nat.eqb_eq in E. eexists. split; [reflexivity|].
    split; [by repeat split|]. split; [by intros _|]. lia.
  - apply Nat.eqb_neq in E.
    destruct (remaining_pages page (BoardPages.pages st) Hnd)
      as (R1 & R2 & R3 & R4 & R5).
    pose proof (filter_keeps_the_order
                  (fun p => negb (String.eqb (BoardPages.id p) page))
                  (BoardPages.pages st)) as R6.
    set (remaining := List.filter _ (BoardPages.pages st)) in *.
    assert (Hlen : 1 < length (BoardPages.pages st)).
    { destruct (BoardPages.pages st) as [|p [|q l]]; simpl in *;
        [congruence|lia|lia]. }
    destruct (String.eqb (BoardPages.activePageId st) page) eqn:Ea.
    + apply String.eqb_eq in Ea.
      destruct remaining as [|first rest] eqn:Er; [simpl in R4; lia|].
      eexists. split; [reflexivity|]. split.
      * repeat split; simpl; [discriminate|exact R1|apply elem_of_cons; by left].
      * split; [lia|]. intros _. simpl. split; [exact R3|]. split.
        -- intros H. specialize (R5 H). simpl in R5. lia.
        -- split; [congruence|]. split; [exact R6|].
           split; [|reflexivity]. intros _. by split.
    + apply String.eqb_neq in Ea.
      eexists. split; [reflexivity|]. split.
      * repeat split; simpl.
        -- intros H. rewrite H in R4. simpl in R4. lia.
        -- exact R1.
        -- apply R2. split; [exact Hact|exact Ea].
      * split; [lia|]. intros _. simpl. split; [exact R3|]. split.
        -- intros H. specialize (R5 H). lia.
        -- split; [intros _; by split|]. split; [exact R6|].
           split; [|reflexivity]. intros H. by destruct Ea.
Qed.

Lemma delete_keeps_the_pages_in_order_witness :
  exists st',
    BoardPages.handleDeletePage "k3f-9zq-x1m"
      {| BoardPages.pages :=
           [{| BoardPages.id := "k3f-9zq-x1m"; BoardPages.name := "Page 1";
               BoardPages.canvasData := None |};
            {| BoardPages.id := "b7w-e2c-5ht"; BoardPages.name := "Page 2";
               BoardPages.canvasData := None |};
            {| BoardPages.id := "r0d-m4y-8ua"; BoardPages.name := "Page 3";
               BoardPages.canvasData := None |}];
         BoardPages.activePageId := "k3f-9zq-x1m";
         BoardPages.lastSavedState := Some "{}";
         BoardPages.toasts := []; BoardPages.console := [] |}
    = Returned st' /\
    BoardPages.activePageId st' = "b7w-e2c-5ht" /\
    BoardPages.lastSavedState st' = None /\
    length (BoardPages.pages st') = 2.
Proof.
  destruct (delete_keeps_the_pages_in_order "k3f-9zq-x1m"
      {| BoardPages.pages :=
           [{| BoardPages.id := "k3f-9zq-x1m"; BoardPages.name := "Page 1";
               BoardPages.canvasData := None |};
            {| BoardPages.id := "b7w-e2c-5ht"; BoardPages.name := "Page 2";
               BoardPages.canvasData := None |};
            {| BoardPages.id := "r0d-m4y-8ua"; BoardPages.name := "Page 3";
               BoardPages.canvasData := None |}];
         BoardPages.activePageId := "k3f-9zq-x1m";
         BoardPages.lastSavedState := Some "{}";
         BoardPages.toasts := []; BoardPages.console := [] |})
    as (st' & Hrun & _).
  - repeat split; simpl.
    + discriminate.
    + repeat (apply NoDup_cons; split;
              [intros H; apply list_elem_of_In in H; simpl in H;
               intuition discriminate|]).
      apply NoDup_nil_2.
    + apply elem_of_cons. by left.
  - exists st'. split; [exact Hrun|].
    vm_compute in Hrun. injection Hrun as <-. repeat split; reflexivity.
Defined.

(** ** Page identifiers *)

Lemma charAt_chars (n : nat) :
  n < 36 ->
  exists c, BoardPages.charAt BoardPages.chars n = String c EmptyString /\
            String.get n BoardPages.chars = Some c.
Proof.
  intros Hn. unfold BoardPages.charAt.
  do 36 (destruct n as [|n]; [eexists; split; reflexivity|]). lia.
Qed.

(** X18: as long as every random draw is an index into the 36 characters,
    [generateShortId] gives an identifier of 11 characters: a "-" at
    positions 3 and 7, and at every other position the character of
    [chars] that the corresponding draw selected, in the order of the
    draws; the identifier thus spells out its nine draws. *)
Theorem short_id_spells_its_draws (draw : nat -> nat) :
  (forall n, n < 9 -> draw n < 36) ->
  String.length (BoardPages.generateShortId draw) = 11 /\
  forall i, i < 11 ->
    String.get i (BoardPages.generateShortId draw) =
    if i mod 4 =? 3 then String.get 0 "-"
    else String.get (draw (i - i / 4)) BoardPages.chars.
Proof.
  intros Hdraw.
  destruct (charAt_chars (draw 0)) as (c0 & E0 & G0); [apply Hdraw; lia|].
  destruct (charAt_chars (draw 1)) as (c1 & E1 & G1); [apply Hdraw; lia|].
  destruct (charAt_chars (draw 2)) as (c2 & E2 & G2); [apply Hdraw; lia|].
  destruct (charAt_chars (draw 3)) as (c3 & E3 & G3); [apply Hdraw; lia|].
  destruct (charAt_chars (draw 4)) as (c4 & E4 & G4); [apply Hdraw; lia|].
  destruct (charAt_chars (draw 5)) as (c5 & E5 & G5); [apply Hdraw; lia|].
  destruct (charAt_chars (draw 6)) as (c6 & E6 & G6); [apply Hdraw; lia|].
  destruct (charAt_chars (draw 7)) as (c7 & E7 & G7); [apply Hdraw; lia|].
  destruct (charAt_chars (draw 8)) as (c8 & E8 & G8); [apply Hdraw; lia|].
  assert (Hid : BoardPages.generateShortId draw =
    String c0 (String c1 (String c2 ("-" +:+
      String c3 (String c4 (String c5 ("-" +:+
        String c6 (String c7 (String c8 EmptyString))))))))).
  { unfold BoardPages.generateShortId. cbn [foldl seq Nat.mul Nat.add Nat.ltb
      Nat.leb Nat.sub].
    rewrite E0, E1, E2, E3, E4, E5, E6, E7, E8. reflexivity. }
  rewrite Hid. split; [reflexivity|].
  set (look := fun n => String.get n BoardPages.chars).
  change (forall i, i < 11 ->
    String.get i
      (String c0 (String c1 (String c2 ("-" +:+
         String c3 (String c4 (String c5 ("-" +:+
           String c6 (String c7 (String c8 EmptyString)))))))))
    = if i mod 4 =? 3 then String.get 0 "-" else look (draw (i - i / 4))).
  change (look (draw 0) = Some c0) in G0. change (look (draw 1) = Some c1) in G1.
  change (look (draw 2) = Some c2) in G2. change (look (draw 3) = Some c3) in G3.
  change (look (draw 4) = Some c4) in G4. change (look (draw 5) = Some c5) in G5.
  change (look (draw 6) = Some c6) in G6. change (look (draw 7) = Some c7) in G7.
  change (look (draw 8) = Some c8) in G8.
  clearbody look. intros i Hi.
  do 11 (destruct i as [|i]; [cbv; congruence|]). lia.
Qed.

Lemma short_id_spells_its_draws_witness :
  String.length (BoardPages.generateShortId (fun n => 4 * n)) = 11.
Proof.
  refine (proj1 (short_id_spells_its_draws (fun n => 4 * n) _)).
  intros n Hn. lia.
Defined.
